(** * go-database: configuration, connection factory and logger adapter

    A shallow embedding of the package [database] (config.go,
    postgresql.go, logger.go) and the properties of its specification.

    Conventions.
    - Go [string] is [string] (a sequence of bytes), Go [int], [int64]
      and [time.Duration] are [Z]; the package compares them and hands
      them on, and computes with none but the constant [200 *
      time.Millisecond], so no wrap-around arises.
    - Calls into gorm, database/sql and the log writer are recorded, in
      order, in the [calls] of the [world]; what those libraries answer
      is a parameter of the functions that ask.
    - [*dbLogger] values live in the [heap] of the [world], so that a copy
      and the original are different objects. *)

From Stdlib Require Import ZArith String Ascii DecimalString.
From stdpp Require Import base strings list gmap.

Open Scope Z_scope.

(* ===================================================================== *)
(** ** Package fmt: the fragment used by config.go *)
(* ===================================================================== *)

Module fmt.

(** An operand of [Sprintf]: config.go passes strings and ints only. *)
Inductive operand : Type :=
| OString (s : string)
| OInt (n : Z).

(** [%d] of an int: decimal digits, a leading [-] below zero. *)
Definition itoa (n : Z) : string := NilZero.string_of_int (Z.to_int n).

Definition typeName (x : operand) : string :=
  match x with
  | OString _ => "string"
  | OInt _ => "int"
  end.

(** [%v]: the operand in its default format. *)
Definition printValue (x : operand) : string :=
  match x with
  | OString s => s
  | OInt n => itoa n
  end.

(** [%!verb(type=value)]: fmt's output for a verb the operand does not
    support. *)
Definition badVerb (verb : ascii) (x : operand) : string :=
  "%!" +:+ String verb ("(" +:+ typeName x +:+ "=" +:+ printValue x +:+ ")").

(** One operand under one verb.  The verbs modelled are [s], [d] and [v];
    any other verb character (flags, widths and precisions included: no
    format of config.go has them) is rendered in the bad-verb form, which
    keeps [Sprintf] total. *)
Definition printArg (x : operand) (verb : ascii) : string :=
  if Ascii.eqb verb "v" then printValue x
  else if Ascii.eqb verb "s" then
    match x with OString s => s | OInt _ => badVerb verb x end
  else if Ascii.eqb verb "d" then
    match x with OInt n => itoa n | OString _ => badVerb verb x end
  else badVerb verb x.

Fixpoint extraOperands (a : list operand) : string :=
  match a with
  | [] => ""
  | [x] => typeName x +:+ "=" +:+ printValue x
  | x :: a' => typeName x +:+ "=" +:+ printValue x +:+ ", " +:+ extraOperands a'
  end.

(** Operands left over when the format ends: [%!(EXTRA type=value, ...)]. *)
Definition extra (a : list operand) : string :=
  match a with
  | [] => ""
  | _ => "%!(EXTRA " +:+ extraOperands a +:+ ")"
  end.

(** [fmt.Sprintf(format, a...)]: the format is copied byte by byte; [%%]
    is a percent sign; [%] and a verb consume the next operand, or give
    [%!verb(MISSING)] when none is left; a lone [%] at the end gives
    [%!(NOVERB)]. *)
Fixpoint Sprintf (format : string) (a : list operand) : string :=
  match format with
  | EmptyString => extra a
  | String c rest =>
      if Ascii.eqb c "%" then
        match rest with
        | EmptyString => "%!(NOVERB)" +:+ extra a
        | String verb rest' =>
            if Ascii.eqb verb "%" then String "%" (Sprintf rest' a)
            else
              match a with
              | [] => "%!" +:+ String verb ("(MISSING)" +:+ Sprintf rest' [])
              | x :: a' => printArg x verb +:+ Sprintf rest' a'
              end
        end
      else String c (Sprintf rest a)
  end.

End fmt.

(** The builtin interface [error]: a value carries the text its [Error()]
    method returns; Go's [nil] error is [None] of [option error]. *)
Record error : Type := errorString { message : string }.

(** [fmt.Errorf(format, a...)]: a new error whose text is the formatted
    string (none of the package's formats has the wrapping verb [%w]). *)
Definition Errorf (format : string) (a : list fmt.operand) : error :=
  errorString (fmt.Sprintf format a).

(* ===================================================================== *)
(** ** config.go *)
(* ===================================================================== *)

Record Config : Type := {
  Host : string;
  Port : Z;
  User : string;
  Pass : string;
  Name : string;
  MaxConnectionPool : Z;
  MinConnectionPool : Z;
  Timezone : string
}.

(** [func (cfg Config) String() string] *)
Definition Config_String (cfg : Config) : string :=
  fmt.Sprintf
    "user=%s password=%s dbname=%s port=%d host=%s min-pool=%d max-pool=%d"
    [fmt.OString (User cfg); fmt.OString (Pass cfg); fmt.OString (Name cfg);
     fmt.OInt (Port cfg); fmt.OString (Host cfg);
     fmt.OInt (MinConnectionPool cfg); fmt.OInt (MaxConnectionPool cfg)].

(** [func (cfg Config) DSN() string] *)
Definition DSN (cfg : Config) : string :=
  fmt.Sprintf
    "user=%s password=%s dbname=%s port=%d host=%s sslmode=disable TimeZone=%s"
    [fmt.OString (User cfg); fmt.OString (Pass cfg); fmt.OString (Name cfg);
     fmt.OInt (Port cfg); fmt.OString (Host cfg); fmt.OString (Timezone cfg)].

(** Field updates, as an assignment through [*Config] does them. *)
Definition set_Timezone (tz : string) (cfg : Config) : Config :=
  {| Host := Host cfg; Port := Port cfg; User := User cfg; Pass := Pass cfg;
     Name := Name cfg; MaxConnectionPool := MaxConnectionPool cfg;
     MinConnectionPool := MinConnectionPool cfg; Timezone := tz |}.

Definition set_Pass (p : string) (cfg : Config) : Config :=
  {| Host := Host cfg; Port := Port cfg; User := User cfg; Pass := p;
     Name := Name cfg; MaxConnectionPool := MaxConnectionPool cfg;
     MinConnectionPool := MinConnectionPool cfg; Timezone := Timezone cfg |}.

(** The example of the package comment of config.go. *)
Definition example_cfg : Config :=
  {| Host := "localhost"; Port := 5432; User := "user"; Pass := "password";
     Name := "mydatabase"; MaxConnectionPool := 10; MinConnectionPool := 2;
     Timezone := "Asia/Jakarta" |}.

(* ===================================================================== *)
(** ** The libraries the package calls *)
(* ===================================================================== *)

(** Package time: a [Duration] is a number of nanoseconds. *)
Module time.

Definition Duration : Type := Z.
Definition Time : Type := Z.
Definition Millisecond : Duration := 1000000.

End time.

(** Package gorm.io/gorm/logger: the log levels ([Silent] is [iota + 1],
    then [Error], [Warn], [Info]), the configuration record and the
    writer a logger prints to. *)
Module logger.

Definition Silent : Z := 1.
Definition Error : Z := 2.
Definition Warn : Z := 3.
Definition Info : Z := 4.

Record Config : Type := {
  SlowThreshold : time.Duration;
  Colorful : bool;
  IgnoreRecordNotFoundError : bool;
  ParameterizedQueries : bool;
  LogLevel : Z
}.

(** A [logger.Writer] is known by its identity; its one method, [Printf],
    is a recorded call. *)
Definition Writer : Type := nat.

(** A [logger.Interface] value: a [*dbLogger] of this package, or some
    other implementation (gorm's default one, say). *)
Inductive Interface : Type :=
| Other (id : nat)
| DbLogger (l : positive).

End logger.

(** Package gorm.io/driver/postgres: the fields of [postgres.Config] the
    package sets. *)
Module postgres.

Record Config : Type := {
  DSN : string;
  PreferSimpleProtocol : bool
}.

End postgres.

(** What a library call answers: a value, or a non-nil error. *)
Inductive result (A : Type) : Type :=
| Ok (a : A)
| Err (e : error).

Arguments Ok {A} a.
Arguments Err {A} e.

(** A [*sql.DB], known by its identity. *)
Definition sql_DB : Type := nat.

(** A [*gorm.DB]: what its method [DB()] answers, and the logger
    installed in its configuration. *)
Record gorm_DB : Type := {
  gorm_DB_DB : result sql_DB;
  gorm_DB_Logger : logger.Interface
}.

(** A Go value handed to a variadic [...interface{}] parameter.
    [VMillis ns] is the float [float64(ns)/1e6]. *)
Inductive value : Type :=
| VString (s : string)
| VInt64 (n : Z)
| VMillis (ns : Z)
| VDuration (d : time.Duration)
| VError (e : error)
| VOther (id : nat).

(** The calls the package makes that change something outside it. *)
Inductive call : Type :=
| call_Open (c : postgres.Config)
| call_SetMaxOpenConns (h : sql_DB) (n : Z)
| call_SetMaxIdleConns (h : sql_DB) (n : Z)
| call_Printf (w : logger.Writer) (format : string) (a : list value).

(* ===================================================================== *)
(** ** logger.go: the record *)
(* ===================================================================== *)

(** [type dbLogger struct]: the embedded [logger.Writer] and
    [logger.Config], then the six format strings. *)
Record dbLogger : Type := {
  dbLogger_Writer : logger.Writer;
  dbLogger_Config : logger.Config;
  infoStr : string;
  warnStr : string;
  errStr : string;
  traceStr : string;
  traceWarnStr : string;
  traceErrStr : string
}.

(** [newLogger.LogLevel = level] on a copy. *)
Definition set_LogLevel (level : Z) (l : dbLogger) : dbLogger :=
  {| dbLogger_Writer := dbLogger_Writer l;
     dbLogger_Config :=
       {| logger.SlowThreshold := logger.SlowThreshold (dbLogger_Config l);
          logger.Colorful := logger.Colorful (dbLogger_Config l);
          logger.IgnoreRecordNotFoundError :=
            logger.IgnoreRecordNotFoundError (dbLogger_Config l);
          logger.ParameterizedQueries :=
            logger.ParameterizedQueries (dbLogger_Config l);
          logger.LogLevel := level |};
     infoStr := infoStr l; warnStr := warnStr l; errStr := errStr l;
     traceStr := traceStr l; traceWarnStr := traceWarnStr l;
     traceErrStr := traceErrStr l |}.

(** [type PostgreSQL struct]: the embedded [*gorm.DB] and [*dbLogger]
    ([None] is the nil pointer). *)
Record PostgreSQL : Type := {
  PostgreSQL_DB : gorm_DB;
  PostgreSQL_dbLogger : option positive
}.

(* ===================================================================== *)
(** ** The world and the monad of the package's methods *)
(* ===================================================================== *)

(** The calls made so far, oldest first, and the loggers allocated. *)
Record world : Type := {
  calls : list call;
  heap : gmap positive dbLogger
}.

Definition empty_world : world := {| calls := []; heap := ∅ |}.

(** A computation changes the world and returns, or panics ([None]). *)
Definition M (A : Type) : Type := world -> option (A * world).

Definition ret {A : Type} (a : A) : M A := fun w => Some (a, w).

Definition bind {A B : Type} (m : M A) (k : A -> M B) : M B :=
  fun w =>
    match m w with
    | Some (a, w') => k a w'
    | None => None
    end.

Notation "x <- m ;; k" := (bind m (fun x => k))
  (at level 100, m at next level, right associativity).

Definition panic {A : Type} : M A := fun _ => None.

(** Make a call. *)
Definition emit (c : call) : M unit :=
  fun w => Some (tt, {| calls := calls w ++ [c]; heap := heap w |}).

(** [&dbLogger{...}]: a new object at an address not in use. *)
Definition new (v : dbLogger) : M positive :=
  fun w =>
    let l := fresh (dom (heap w)) in
    Some (l, {| calls := calls w; heap := <[l := v]> (heap w) |}).

(** [*l]: reading through a nil or dangling pointer panics. *)
Definition load (l : positive) : M dbLogger :=
  fun w =>
    match heap w !! l with
    | Some v => Some (v, w)
    | None => None
    end.

(* ===================================================================== *)
(** ** logger.go: the functions *)
(* ===================================================================== *)

(** The escape byte [\033]. *)
Definition ESC : string := String "027" "".

(** [func NewLogger(writer logger.Writer, config logger.Config) *dbLogger] *)
Definition NewLogger (writer : logger.Writer) (config : logger.Config)
  : M positive :=
  if logger.Colorful config then
    new {| dbLogger_Writer := writer;
           dbLogger_Config := config;
           infoStr := ESC +:+ "[0m" +:+ ESC +:+ "[32m[info] %s" +:+ ESC +:+ "[0m";
           warnStr := ESC +:+ "[0m" +:+ ESC +:+ "[35m[warn] %s" +:+ ESC +:+ "[0m";
           errStr := ESC +:+ "[0m" +:+ ESC +:+ "[31m[error] %s" +:+ ESC +:+ "[0m";
           traceStr :=
             ESC +:+ "[33m[%.3fms] " +:+ ESC +:+ "[34;1m[rows:%v]" +:+ ESC
             +:+ "[0m %s";
           traceWarnStr :=
             ESC +:+ "[33m%s " +:+ ESC +:+ "[0m" +:+ ESC +:+ "[31;1m[%.3fms] "
             +:+ ESC +:+ "[33m[rows:%v]" +:+ ESC +:+ "[35m %s" +:+ ESC +:+ "[0m";
           traceErrStr :=
             ESC +:+ "[35;1m%s " +:+ ESC +:+ "[0m" +:+ ESC +:+ "[33m[%.3fms] "
             +:+ ESC +:+ "[34;1m[rows:%v]" +:+ ESC +:+ "[0m %s" |}
  else
    new {| dbLogger_Writer := writer;
           dbLogger_Config := config;
           infoStr := "[info] %s";
           warnStr := "[warn] %s";
           errStr := "[error] %s";
           traceStr := "[%.3fms] [rows:%v] %s";
           traceWarnStr := "%s [%.3fms] [rows:%v] %s";
           traceErrStr := "%s [%.3fms] [rows:%v] %s" |}.

(** [func (l *dbLogger) LogMode(level logger.LogLevel) logger.Interface]:
    the result is the address of the copy. *)
Definition LogMode (l : positive) (level : Z) : M positive :=
  newLogger <- load l ;;
  new (set_LogLevel level newLogger).

Section Logging.

(** [fmt.Sprintf] on operands of any type, and [time.Since]: library
    functions, taken as given. *)
Variable fmt_Sprintf : string -> list value -> string.
Variable time_Since : time.Time -> time.Duration.

(** [func (l *dbLogger) Info(ctx, msg string, data ...interface{})]; the
    context is not used by any of the methods and is left out. *)
Definition Info (l : positive) (msg : string) (data : list value) : M unit :=
  v <- load l ;;
  if logger.Info <=? logger.LogLevel (dbLogger_Config v) then
    emit (call_Printf (dbLogger_Writer v) (infoStr v)
            [VString (fmt_Sprintf msg data)])
  else ret tt.

(** [func (l *dbLogger) Warn(ctx, msg string, data ...interface{})] *)
Definition Warn (l : positive) (msg : string) (data : list value) : M unit :=
  v <- load l ;;
  if logger.Warn <=? logger.LogLevel (dbLogger_Config v) then
    emit (call_Printf (dbLogger_Writer v) (warnStr v)
            [VString (fmt_Sprintf msg data)])
  else ret tt.

(** [func (l *dbLogger) Error(ctx, msg string, data ...interface{})] *)
Definition Error (l : positive) (msg : string) (data : list value) : M unit :=
  v <- load l ;;
  if logger.Error <=? logger.LogLevel (dbLogger_Config v) then
    emit (call_Printf (dbLogger_Writer v) (errStr v)
            [VString (fmt_Sprintf msg data)])
  else ret tt.

(** The second and third cases of the switch of [Trace], tried when the
    first one does not apply. *)
Definition Trace_cases (v : dbLogger) (elapsed : time.Duration)
    (fc : unit -> string * Z) : M unit :=
  let cfg := dbLogger_Config v in
  if (logger.SlowThreshold cfg <? elapsed)
     && negb (logger.SlowThreshold cfg =? 0)
     && (logger.Warn <=? logger.LogLevel cfg) then
    let '(sql, rows) := fc tt in
    let slowLog :=
      fmt_Sprintf "SLOW SQL >= %v" [VDuration (logger.SlowThreshold cfg)] in
    emit (call_Printf (dbLogger_Writer v) (traceWarnStr v)
            [VString slowLog; VMillis elapsed; VInt64 rows; VString sql])
  else if logger.LogLevel cfg =? logger.Info then
    let '(sql, rows) := fc tt in
    emit (call_Printf (dbLogger_Writer v) (traceStr v)
            [VMillis elapsed; VInt64 rows; VString sql])
  else ret tt.

(** [func (l *dbLogger) Trace(ctx, begin time.Time,
    fc func() (string, int64), err error)] *)
Definition Trace (l : positive) (begin : time.Time)
    (fc : unit -> string * Z) (err : option error) : M unit :=
  v <- load l ;;
  if logger.LogLevel (dbLogger_Config v) <=? logger.Silent then ret tt
  else
    let elapsed := time_Since begin in
    match err with
    | Some e =>
        if logger.Error <=? logger.LogLevel (dbLogger_Config v) then
          let '(sql, rows) := fc tt in
          emit (call_Printf (dbLogger_Writer v) (traceErrStr v)
                  [VError e; VMillis elapsed; VInt64 rows; VString sql])
        else Trace_cases v elapsed fc
    | None => Trace_cases v elapsed fc
    end.

End Logging.

(** [func (l *dbLogger) ParamsFilter(ctx, sql string,
    params ...interface{}) (string, []interface{})]; the nil slice is the
    empty list. *)
Definition ParamsFilter (l : positive) (sql : string) (params : list value)
  : M (string * list value) :=
  v <- load l ;;
  if logger.ParameterizedQueries (dbLogger_Config v) then ret (sql, [])
  else ret (sql, params).

(* ===================================================================== *)
(** ** postgresql.go *)
(* ===================================================================== *)

(** [func (db *PostgreSQL) SetMaxConnectionPool(n int) error] *)
Definition SetMaxConnectionPool (db : PostgreSQL) (n : Z) : M (option error) :=
  match gorm_DB_DB (PostgreSQL_DB db) with
  | Err err =>
      ret (Some (Errorf "failed to get sql db; %s" [fmt.OString (message err)]))
  | Ok sqlDB =>
      _ <- emit (call_SetMaxOpenConns sqlDB n) ;;
      ret None
  end.

(** [func (db *PostgreSQL) SetMinConnectionPool(n int) error] *)
Definition SetMinConnectionPool (db : PostgreSQL) (n : Z) : M (option error) :=
  match gorm_DB_DB (PostgreSQL_DB db) with
  | Err err =>
      ret (Some (Errorf "failed to get sql db; %s" [fmt.OString (message err)]))
  | Ok sqlDB =>
      _ <- emit (call_SetMaxIdleConns sqlDB n) ;;
      ret None
  end.

Section Connecting.

(** [gorm.Open(postgres.New(c), &gorm.Config{})]: what the library
    answers to the call, taken as given. *)
Variable gorm_Open : postgres.Config -> result gorm_DB.

(** [func CreatePostgreSQL(cfg *Config)], returning a [*PostgreSQL] and an
    [error]: [cfg] is
    the Config the pointer refers to, and the first component of the
    result is that Config when the function returns. *)
Definition CreatePostgreSQL (cfg : Config)
  : M (Config * (option PostgreSQL * option error)) :=
  let cfg :=
    if String.eqb (Timezone cfg) "" then set_Timezone "Asia/Jakarta" cfg
    else cfg in
  let c :=
    {| postgres.DSN := DSN cfg; postgres.PreferSimpleProtocol := true |} in
  _ <- emit (call_Open c) ;;
  match gorm_Open c with
  | Err err =>
      ret (cfg, (None,
                 Some (Errorf "failed to connect database; %s"
                         [fmt.OString (message err)])))
  | Ok gormDB =>
      let db := {| PostgreSQL_DB := gormDB; PostgreSQL_dbLogger := None |} in
      err <- (if MaxConnectionPool cfg <=? 0
              then SetMaxConnectionPool db (MaxConnectionPool cfg)
              else ret None) ;;
      match err with
      | Some err => ret (cfg, (None, Some err))
      | None =>
          err <- SetMinConnectionPool db (MinConnectionPool cfg) ;;
          match err with
          | Some err => ret (cfg, (None, Some err))
          | None => ret (cfg, (Some db, None))
          end
      end
  end.

End Connecting.

(** [func (db *PostgreSQL) SetLogger(writer logger.Writer)]: the result
    is the receiver after the two assignments. *)
Definition SetLogger (db : PostgreSQL) (writer : logger.Writer)
  : M PostgreSQL :=
  let config :=
    {| logger.SlowThreshold := 200 * time.Millisecond;
       logger.Colorful := true;
       logger.IgnoreRecordNotFoundError := false;
       logger.ParameterizedQueries := false;
       logger.LogLevel := logger.Warn |} in
  l <- NewLogger writer config ;;
  ret {| PostgreSQL_DB :=
           {| gorm_DB_DB := gorm_DB_DB (PostgreSQL_DB db);
              gorm_DB_Logger := logger.DbLogger l |};
         PostgreSQL_dbLogger := Some l |}.

(** [func (db *PostgreSQL) DebugMode()]: [LogMode] on a nil [dbLogger]
    panics. *)
Definition DebugMode (db : PostgreSQL) : M PostgreSQL :=
  match PostgreSQL_dbLogger db with
  | None => panic
  | Some l =>
      l' <- LogMode l logger.Info ;;
      ret {| PostgreSQL_DB :=
               {| gorm_DB_DB := gorm_DB_DB (PostgreSQL_DB db);
                  gorm_DB_Logger := logger.DbLogger l' |};
             PostgreSQL_dbLogger := PostgreSQL_dbLogger db |}
  end.

(* ===================================================================== *)
(** ** Predicates of the specification *)
(* ===================================================================== *)

(** [s] occurs in [t] as a contiguous run of bytes. *)
Definition occurs_in (s t : string) : Prop :=
  exists pre post : string, t = pre +:+ s +:+ post.

(** Two configurations that agree on every field but [Pass]. *)
Definition same_but_Pass (c1 c2 : Config) : Prop :=
  Host c1 = Host c2 /\ Port c1 = Port c2 /\ User c1 = User c2 /\
  Name c1 = Name c2 /\ MaxConnectionPool c1 = MaxConnectionPool c2 /\
  MinConnectionPool c1 = MinConnectionPool c2 /\ Timezone c1 = Timezone c2.

(** [m], run in [w], returns, makes the calls [cs] and no other, and
    leaves the loggers as they are. *)
Definition makes (cs : list call) (m : M unit) (w : world) : Prop :=
  exists w' : world,
    m w = Some (tt, w') /\ heap w' = heap w /\ calls w' = calls w ++ cs.

(** [m] makes the call [c] when [cond] holds, and no call otherwise. *)
Definition writes_iff (cond : Prop) (c : call) (m : M unit) (w : world)
  : Prop :=
  (cond -> makes [c] m w) /\ (~ cond -> makes [] m w).

(* ===================================================================== *)
(** ** Sample values, for the examples *)
(* ===================================================================== *)

(** A stand-in for [fmt.Sprintf] that formats nothing. *)
Definition sample_Sprintf (format : string) (a : list value) : string :=
  format.

(** A clock that reads 1000 ns when [time.Since] is called. *)
Definition sample_Since (begin : time.Time) : time.Duration := 1000 - begin.

Definition sample_fc (_ : unit) : string * Z := ("SELECT 1", 1).

Definition sample_config (level : Z) : logger.Config :=
  {| logger.SlowThreshold := 200 * time.Millisecond;
     logger.Colorful := false;
     logger.IgnoreRecordNotFoundError := false;
     logger.ParameterizedQueries := false;
     logger.LogLevel := level |}.

(** The logger [NewLogger 0 (sample_config level)] builds, and a world
    where it is the one logger, at address 1. *)
Definition sample_logger (level : Z) : dbLogger :=
  {| dbLogger_Writer := 0%nat;
     dbLogger_Config := sample_config level;
     infoStr := "[info] %s";
     warnStr := "[warn] %s";
     errStr := "[error] %s";
     traceStr := "[%.3fms] [rows:%v] %s";
     traceWarnStr := "%s [%.3fms] [rows:%v] %s";
     traceErrStr := "%s [%.3fms] [rows:%v] %s" |}.

Definition sample_world (level : Z) : world :=
  {| calls := []; heap := {[ 1%positive := sample_logger level ]} |}.

(** A [*gorm.DB] whose [DB()] answers the handle 1. *)
Definition sample_gormDB : gorm_DB :=
  {| gorm_DB_DB := Ok 1%nat; gorm_DB_Logger := logger.Other 0 |}.

(** A [*gorm.DB] whose [DB()] fails. *)
Definition broken_gormDB : gorm_DB :=
  {| gorm_DB_DB := Err (errorString "sql: database is closed");
     gorm_DB_Logger := logger.Other 0 |}.

(** The configuration of the README's example. *)
Definition readme_cfg : Config :=
  {| Host := "localhost"; Port := 5432; User := "username";
     Pass := "password"; Name := "dbname"; MaxConnectionPool := 20;
     MinConnectionPool := 5; Timezone := "Asia/Jakarta" |}.

(* ===================================================================== *)
(** ** Predicates for the further properties *)
(* ===================================================================== *)

Definition set_User (u : string) (cfg : Config) : Config :=
  {| Host := Host cfg; Port := Port cfg; User := u; Pass := Pass cfg;
     Name := Name cfg; MaxConnectionPool := MaxConnectionPool cfg;
     MinConnectionPool := MinConnectionPool cfg; Timezone := Timezone cfg |}.

(** The Config as the first statement of CreatePostgreSQL leaves it. *)
Definition defaulted (cfg : Config) : Config :=
  if String.eqb (Timezone cfg) "" then set_Timezone "Asia/Jakarta" cfg
  else cfg.

(** The argument of the one call of gorm.Open. *)
Definition opened_with (cfg : Config) : postgres.Config :=
  {| postgres.DSN := DSN (defaulted cfg);
     postgres.PreferSimpleProtocol := true |}.

(** The level, threshold, elapsed time and error under which some case of
    the switch of Trace applies. *)
Definition Trace_prints (v : dbLogger) (elapsed : time.Duration)
    (err : option error) : Prop :=
  logger.Silent < logger.LogLevel (dbLogger_Config v)
  /\ (err <> None
      \/ (logger.SlowThreshold (dbLogger_Config v) <> 0
          /\ logger.SlowThreshold (dbLogger_Config v) < elapsed
          /\ logger.Warn <= logger.LogLevel (dbLogger_Config v))
      \/ logger.LogLevel (dbLogger_Config v) = logger.Info).

(** The number of operands a format asks for: its [%] directives, the
    escaped [%%] apart. *)
Fixpoint verbs (format : string) : nat :=
  match format with
  | EmptyString => 0%nat
  | String c rest =>
      if Ascii.eqb c "%" then
        match rest with
        | EmptyString => 1%nat
        | String c' rest' =>
            if Ascii.eqb c' "%" then verbs rest' else S (verbs rest')
        end
      else verbs rest
  end.

(** A Printf is handed as many operands as its format asks for. *)
Definition arity_ok (c : call) : Prop :=
  match c with
  | call_Printf _ format a => verbs format = length a
  | _ => True
  end.

(** The six formats ask for the operands the methods hand over. *)
Definition formats_ok (v : dbLogger) : Prop :=
  verbs (infoStr v) = 1%nat /\ verbs (warnStr v) = 1%nat
  /\ verbs (errStr v) = 1%nat /\ verbs (traceStr v) = 3%nat
  /\ verbs (traceWarnStr v) = 4%nat /\ verbs (traceErrStr v) = 4%nat.

Definition heap_ok (w : world) : Prop :=
  forall (l : positive) (v : dbLogger), heap w !! l = Some v -> formats_ok v.

(** A string without its colour sequences, each running from the escape
    byte to the next [m]; [escaped] tells whether one is being skipped. *)
Fixpoint strip_colour (escaped : bool) (s : string) : string :=
  match s with
  | EmptyString => EmptyString
  | String c rest =>
      if escaped then strip_colour (negb (Ascii.eqb c "m")) rest
      else if Ascii.eqb c "027" then strip_colour true rest
      else String c (strip_colour false rest)
  end.

(** A plain logger with slow-query reporting switched off, and a world
    where it is the one logger, at address 1. *)
Definition sample_logger_no_threshold (level : Z) : dbLogger :=
  {| dbLogger_Writer := 0%nat;
     dbLogger_Config :=
       {| logger.SlowThreshold := 0;
          logger.Colorful := false;
          logger.IgnoreRecordNotFoundError := false;
          logger.ParameterizedQueries := true;
          logger.LogLevel := level |};
     infoStr := "[info] %s";
     warnStr := "[warn] %s";
     errStr := "[error] %s";
     traceStr := "[%.3fms] [rows:%v] %s";
     traceWarnStr := "%s [%.3fms] [rows:%v] %s";
     traceErrStr := "%s [%.3fms] [rows:%v] %s" |}.

Definition sample_world_no_threshold (level : Z) : world :=
  {| calls := [];
     heap := {[ 1%positive := sample_logger_no_threshold level ]} |}.

(* ===================================================================== *)
(** ** Facts about strings *)
(* ===================================================================== *)

Lemma append_nil_r (s : string) : s +:+ "" = s.
Proof.
  induction s as [|c s IH]; [reflexivity|].
  change (String c (s +:+ "") = String c s). by rewrite IH.
Qed.

Lemma length_append (s t : string) :
  String.length (s +:+ t) = (String.length s + String.length t)%nat.
Proof.
  induction s as [|c s IH]; [reflexivity|].
  change (S (String.length (s +:+ t)) = S (String.length s + String.length t)).
  by rewrite IH.
Qed.

Lemma append_assoc (s t u : string) : (s +:+ t) +:+ u = s +:+ (t +:+ u).
Proof.
  induction s as [|c s IH]; [reflexivity|].
  change (String c ((s +:+ t) +:+ u) = String c (s +:+ (t +:+ u))).
  by rewrite IH.
Qed.

(** Cancelling a common suffix. *)
Lemma append_cancel_r (r s t : string) : s +:+ r = t +:+ r -> s = t.
Proof.
  revert t. induction s as [|c s IH]; intros [|d t] H.
  - reflexivity.
  - apply (f_equal String.length) in H.
    change (String.length r = S (String.length (t +:+ r))) in H.
    rewrite length_append in H. lia.
  - apply (f_equal String.length) in H.
    change (S (String.length (s +:+ r)) = String.length r) in H.
    rewrite length_append in H. lia.
  - change (String c (s +:+ r) = String d (t +:+ r)) in H.
    injection H as -> H. f_equal. by apply IH.
Qed.

(** Cancelling a common prefix. *)
Lemma append_cancel_l (p s t : string) : p +:+ s = p +:+ t -> s = t.
Proof. apply (inj (String.append p)). Qed.

(* ===================================================================== *)
(** ** config.go: the two renderings of a Config *)
(* ===================================================================== *)

Lemma Config_String_eq (cfg : Config) :
  Config_String cfg =
  "user=" +:+ User cfg +:+ " password=" +:+ Pass cfg
  +:+ " dbname=" +:+ Name cfg +:+ " port=" +:+ fmt.itoa (Port cfg)
  +:+ " host=" +:+ Host cfg
  +:+ " min-pool=" +:+ fmt.itoa (MinConnectionPool cfg)
  +:+ " max-pool=" +:+ fmt.itoa (MaxConnectionPool cfg).
Proof.
  unfold Config_String. cbn.
  rewrite (append_nil_r (fmt.itoa (MaxConnectionPool cfg))). reflexivity.
Qed.

Lemma DSN_eq (cfg : Config) :
  DSN cfg =
  "user=" +:+ User cfg +:+ " password=" +:+ Pass cfg
  +:+ " dbname=" +:+ Name cfg +:+ " port=" +:+ fmt.itoa (Port cfg)
  +:+ " host=" +:+ Host cfg
  +:+ " sslmode=disable TimeZone=" +:+ Timezone cfg.
Proof.
  unfold DSN. cbn. rewrite (append_nil_r (Timezone cfg)). reflexivity.
Qed.

(** C3: for every Config, DSN returns exactly
    "user=<u> password=<p> dbname=<n> port=<port> host=<h> sslmode=disable
    TimeZone=<tz>", each placeholder replaced by the field's value (the port
    in decimal). *)
Theorem C3_DSN_format (cfg : Config) :
  DSN cfg =
  "user=" +:+ User cfg +:+ " password=" +:+ Pass cfg
  +:+ " dbname=" +:+ Name cfg +:+ " port=" +:+ fmt.itoa (Port cfg)
  +:+ " host=" +:+ Host cfg
  +:+ " sslmode=disable TimeZone=" +:+ Timezone cfg.
Proof.
  unfold DSN. cbn.
  rewrite (append_nil_r (Timezone cfg)). reflexivity.
Qed.

(** C4: for every Config, String returns exactly
    "user=<u> password=<p> dbname=<n> port=<port> host=<h> min-pool=<min>
    max-pool=<max>", and the Pass field occurs verbatim in the output of
    both String and DSN, right after "password=". *)
Theorem C4_String_format_plaintext_password (cfg : Config) :
  Config_String cfg =
    "user=" +:+ User cfg +:+ " password=" +:+ Pass cfg
    +:+ " dbname=" +:+ Name cfg +:+ " port=" +:+ fmt.itoa (Port cfg)
    +:+ " host=" +:+ Host cfg
    +:+ " min-pool=" +:+ fmt.itoa (MinConnectionPool cfg)
    +:+ " max-pool=" +:+ fmt.itoa (MaxConnectionPool cfg)
  /\ occurs_in ("password=" +:+ Pass cfg +:+ " ") (Config_String cfg)
  /\ occurs_in ("password=" +:+ Pass cfg +:+ " ") (DSN cfg).
Proof.
  split; [apply Config_String_eq|].
  rewrite Config_String_eq, DSN_eq.
  split.
  - exists ("user=" +:+ User cfg +:+ " "). eexists.
    rewrite !append_assoc. reflexivity.
  - exists ("user=" +:+ User cfg +:+ " "). eexists.
    rewrite !append_assoc. reflexivity.
Qed.

(** C5, as the specification words it, fails: two configurations that
    differ in Pass only are displayed differently. *)
Lemma C5_counterexample :
  same_but_Pass (set_Pass "hunter2" example_cfg)
                (set_Pass "swordfish" example_cfg)
  /\ Config_String (set_Pass "hunter2" example_cfg)
     <> Config_String (set_Pass "swordfish" example_cfg).
Proof. split; [by repeat split | discriminate]. Qed.

(** C5, amended: the display string is not redacted.  For two Configs
    that differ at most in Pass, String returns the same output exactly
    when the two passwords are equal: the password decides the display
    form. *)
Theorem C5_String_depends_on_Pass (c1 c2 : Config) :
  same_but_Pass c1 c2 ->
  (Config_String c1 = Config_String c2 <-> Pass c1 = Pass c2).
Proof.
  intros (Hh & Hp & Hu & Hn & Hmax & Hmin & _).
  rewrite !Config_String_eq, Hh, Hp, Hu, Hn, Hmax, Hmin.
  split; [|by intros ->].
  intros H.
  apply append_cancel_l, append_cancel_l, append_cancel_l in H.
  by apply append_cancel_r in H.
Qed.

Lemma C5_String_depends_on_Pass_witness :
  same_but_Pass (set_Pass "hunter2" example_cfg) example_cfg
  /\ (Config_String (set_Pass "hunter2" example_cfg) = Config_String example_cfg
      <-> Pass (set_Pass "hunter2" example_cfg) = Pass example_cfg).
Proof.
  split.
  - by repeat split.
  - apply (C5_String_depends_on_Pass (set_Pass "hunter2" example_cfg) example_cfg).
    by repeat split.
Defined.

(* ===================================================================== *)
(** ** The heap *)
(* ===================================================================== *)

Lemma fresh_not_allocated (h : gmap positive dbLogger) :
  h !! fresh (dom h) = None.
Proof. apply not_elem_of_dom, is_fresh. Qed.

Lemma fresh_ne_allocated (h : gmap positive dbLogger) (l : positive)
    (v : dbLogger) :
  h !! l = Some v -> fresh (dom h) <> l.
Proof. intros H E. rewrite <- E, fresh_not_allocated in H. discriminate. Qed.

Lemma makes_nothing (m : M unit) (w : world) :
  m w = Some (tt, w) -> makes [] m w.
Proof. intros H. exists w. by rewrite app_nil_r. Qed.

Lemma makes_emit (c : call) (w : world) : makes [c] (emit c) w.
Proof. by eexists. Qed.

(** A method that reads its receiver and goes on. *)
Lemma load_bind {A : Type} (l : positive) (v : dbLogger) (k : dbLogger -> M A)
    (w : world) :
  heap w !! l = Some v -> (x <- load l ;; k x) w = k v w.
Proof. intros H. unfold bind, load. by rewrite H. Qed.

Lemma makes_load_bind (cs : list call) (l : positive) (v : dbLogger)
    (k : dbLogger -> M unit) (w : world) :
  heap w !! l = Some v -> makes cs (k v) w -> makes cs (x <- load l ;; k x) w.
Proof. intros H. unfold makes. by rewrite (load_bind l v). Qed.

(* ===================================================================== *)
(** ** logger.go *)
(* ===================================================================== *)

(** C7: for every dbLogger l and level, LogMode returns a new logger (at
    an address that was not in use, so not l) whose LogLevel is the level
    given and whose writer, other configuration fields and six format
    strings are those of l; l is unchanged, as is every other logger, and
    nothing is printed. *)
Theorem C7_LogMode_copy_and_replace (w : world) (l : positive) (v : dbLogger)
    (level : Z) :
  heap w !! l = Some v ->
  exists (l' : positive) (v' : dbLogger) (w' : world),
    LogMode l level w = Some (l', w')
    /\ l' <> l /\ heap w !! l' = None
    /\ heap w' !! l' = Some v'
    /\ logger.LogLevel (dbLogger_Config v') = level
    /\ dbLogger_Writer v' = dbLogger_Writer v
    /\ logger.SlowThreshold (dbLogger_Config v')
       = logger.SlowThreshold (dbLogger_Config v)
    /\ logger.Colorful (dbLogger_Config v')
       = logger.Colorful (dbLogger_Config v)
    /\ logger.IgnoreRecordNotFoundError (dbLogger_Config v')
       = logger.IgnoreRecordNotFoundError (dbLogger_Config v)
    /\ logger.ParameterizedQueries (dbLogger_Config v')
       = logger.ParameterizedQueries (dbLogger_Config v)
    /\ infoStr v' = infoStr v /\ warnStr v' = warnStr v
    /\ errStr v' = errStr v /\ traceStr v' = traceStr v
    /\ traceWarnStr v' = traceWarnStr v /\ traceErrStr v' = traceErrStr v
    /\ heap w' !! l = Some v
    /\ (forall k : positive, k <> l' -> heap w' !! k = heap w !! k)
    /\ calls w' = calls w.
Proof.
  intros H.
  exists (fresh (dom (heap w))), (set_LogLevel level v).
  eexists. split.
  { unfold LogMode. rewrite (load_bind l v) by exact H. reflexivity. }
  pose proof (fresh_ne_allocated _ _ _ H) as Hne.
  cbn [heap calls].
  split; [exact Hne|].
  split; [apply fresh_not_allocated|].
  split; [apply lookup_insert_eq|].
  do 12 (split; [reflexivity|]).
  split; [by rewrite lookup_insert_ne|].
  split; [|reflexivity].
  intros k Hk. by rewrite lookup_insert_ne.
Qed.

Lemma C7_LogMode_copy_and_replace_witness :
  heap (sample_world logger.Warn) !! 1%positive
  = Some (sample_logger logger.Warn)
  /\ exists (l' : positive) (v' : dbLogger) (w' : world),
       LogMode 1 logger.Info (sample_world logger.Warn) = Some (l', w')
       /\ l' <> 1%positive
       /\ heap w' !! l' = Some v'
       /\ logger.LogLevel (dbLogger_Config v') = logger.Info
       /\ heap w' !! 1%positive = Some (sample_logger logger.Warn).
Proof.
  split; [apply lookup_singleton_eq|].
  destruct (C7_LogMode_copy_and_replace (sample_world logger.Warn) 1
              (sample_logger logger.Warn) logger.Info
              (lookup_singleton_eq _ _))
    as (l' & v' & w' & Hrun & Hne & _ & Hnew & Hlevel & _ & _ & _ & _ & _
        & _ & _ & _ & _ & _ & _ & Hold & _).
  exists l', v', w'. repeat split; assumption.
Defined.

(** The three severity methods have one shape: read the receiver, print
    when the level reaches the method's own. *)
Lemma gated_Printf (threshold : Z) (format : dbLogger -> string)
    (text : string) (l : positive) (v : dbLogger) (w : world) :
  heap w !! l = Some v ->
  writes_iff (threshold <= logger.LogLevel (dbLogger_Config v))
    (call_Printf (dbLogger_Writer v) (format v) [VString text])
    (x <- load l ;;
     if threshold <=? logger.LogLevel (dbLogger_Config x)
     then emit (call_Printf (dbLogger_Writer x) (format x) [VString text])
     else ret tt)
    w.
Proof.
  intros H. unfold writes_iff, makes. rewrite (load_bind l v) by exact H.
  split; intros Hc.
  - apply Z.leb_le in Hc. rewrite Hc. apply makes_emit.
  - apply Z.leb_nle in Hc. rewrite Hc. by apply makes_nothing.
Qed.

(** C9: the severity methods are gated by the level of the logger.  For
    every message and operands, Info, Warn and Error print (one Printf
    on the logger's writer, with the method's format) if and only if
    LogLevel is at least Info, Warn and Error respectively, and Trace
    prints nothing when LogLevel is Silent or below. *)
Theorem C9_level_gates (fmt_Sprintf : string -> list value -> string)
    (time_Since : time.Time -> time.Duration)
    (w : world) (l : positive) (v : dbLogger)
    (msg : string) (data : list value)
    (begin : time.Time) (fc : unit -> string * Z) (err : option error) :
  heap w !! l = Some v ->
  writes_iff (logger.Info <= logger.LogLevel (dbLogger_Config v))
    (call_Printf (dbLogger_Writer v) (infoStr v)
       [VString (fmt_Sprintf msg data)])
    (Info fmt_Sprintf l msg data) w
  /\ writes_iff (logger.Warn <= logger.LogLevel (dbLogger_Config v))
       (call_Printf (dbLogger_Writer v) (warnStr v)
          [VString (fmt_Sprintf msg data)])
       (Warn fmt_Sprintf l msg data) w
  /\ writes_iff (logger.Error <= logger.LogLevel (dbLogger_Config v))
       (call_Printf (dbLogger_Writer v) (errStr v)
          [VString (fmt_Sprintf msg data)])
       (Error fmt_Sprintf l msg data) w
  /\ (logger.LogLevel (dbLogger_Config v) <= logger.Silent ->
      makes [] (Trace fmt_Sprintf time_Since l begin fc err) w).
Proof.
  intros H.
  split; [exact (gated_Printf logger.Info infoStr _ l v w H)|].
  split; [exact (gated_Printf logger.Warn warnStr _ l v w H)|].
  split; [exact (gated_Printf logger.Error errStr _ l v w H)|].
  intros Hs. apply makes_nothing.
  unfold Trace. rewrite (load_bind l v) by exact H.
  apply Z.leb_le in Hs. by rewrite Hs.
Qed.

Lemma C9_level_gates_witness :
  heap (sample_world logger.Warn) !! 1%positive
  = Some (sample_logger logger.Warn)
  /\ makes [] (Info sample_Sprintf 1 "connected to %s" [VString "db"])
       (sample_world logger.Warn)
  /\ makes [call_Printf 0%nat "[warn] %s" [VString "pool is %d"]]
       (Warn sample_Sprintf 1 "pool is %d" [VInt64 5])
       (sample_world logger.Warn).
Proof.
  pose proof (C9_level_gates sample_Sprintf sample_Since
                (sample_world logger.Warn) 1 (sample_logger logger.Warn)
                "connected to %s" [VString "db"] 0 sample_fc None
                (lookup_singleton_eq _ _)) as (HInfo & _).
  pose proof (C9_level_gates sample_Sprintf sample_Since
                (sample_world logger.Warn) 1 (sample_logger logger.Warn)
                "pool is %d" [VInt64 5] 0 sample_fc None
                (lookup_singleton_eq _ _)) as (_ & HWarn & _).
  split; [apply lookup_singleton_eq|].
  split.
  - apply HInfo. cbn. unfold logger.Info, logger.Warn. lia.
  - apply HWarn. cbn. unfold logger.Warn. lia.
Defined.

(** C2, as the specification words it, fails on the level gates.  With a
    non-nil error and LogLevel Silent, Trace prints nothing, not the error
    format; with no error, a fast query and LogLevel Warn (the level
    SetLogger installs), it prints nothing, not the default format; with
    no error, a slow query and LogLevel Error, it prints nothing, not the
    slow format. *)
Lemma C2_counterexample :
  makes [] (Trace sample_Sprintf sample_Since 1 0 sample_fc
              (Some (errorString "boom")))
    (sample_world logger.Silent)
  /\ makes [] (Trace sample_Sprintf sample_Since 1 0 sample_fc None)
       (sample_world logger.Warn)
  /\ makes [] (Trace sample_Sprintf (fun _ => 300 * time.Millisecond) 1 0
                 sample_fc None)
       (sample_world logger.Error).
Proof. repeat split; by apply makes_nothing. Qed.

(** C2, amended: the three-way choice holds under the level gates.  With
    LogLevel Silent or below Trace prints nothing.  Above Silent, a
    non-nil error selects the error format.  With a nil error, a nonzero
    SlowThreshold that the elapsed time exceeds selects the slow format
    when LogLevel is at least Warn; failing that, LogLevel Info selects
    the default format, and any other level prints nothing. *)
Theorem C2_Trace_selection (fmt_Sprintf : string -> list value -> string)
    (time_Since : time.Time -> time.Duration)
    (w : world) (l : positive) (v : dbLogger)
    (begin : time.Time) (fc : unit -> string * Z) (err : option error) :
  heap w !! l = Some v ->
  forall (level : Z) (threshold elapsed : time.Duration)
         (sql : string) (rows : Z),
    level = logger.LogLevel (dbLogger_Config v) ->
    threshold = logger.SlowThreshold (dbLogger_Config v) ->
    elapsed = time_Since begin ->
    (sql, rows) = fc tt ->
    (level <= logger.Silent ->
     makes [] (Trace fmt_Sprintf time_Since l begin fc err) w)
    /\ (logger.Silent < level ->
        forall e : error, err = Some e ->
        makes [call_Printf (dbLogger_Writer v) (traceErrStr v)
                 [VError e; VMillis elapsed; VInt64 rows; VString sql]]
          (Trace fmt_Sprintf time_Since l begin fc err) w)
    /\ (logger.Warn <= level -> err = None ->
        threshold <> 0 -> threshold < elapsed ->
        makes [call_Printf (dbLogger_Writer v) (traceWarnStr v)
                 [VString (fmt_Sprintf "SLOW SQL >= %v" [VDuration threshold]);
                  VMillis elapsed; VInt64 rows; VString sql]]
          (Trace fmt_Sprintf time_Since l begin fc err) w)
    /\ (level = logger.Info -> err = None ->
        ~ (threshold <> 0 /\ threshold < elapsed) ->
        makes [call_Printf (dbLogger_Writer v) (traceStr v)
                 [VMillis elapsed; VInt64 rows; VString sql]]
          (Trace fmt_Sprintf time_Since l begin fc err) w)
    /\ (logger.Silent < level -> level <> logger.Info -> err = None ->
        ~ (threshold <> 0 /\ threshold < elapsed /\ logger.Warn <= level) ->
        makes [] (Trace fmt_Sprintf time_Since l begin fc err) w).
Proof.
  intros H level threshold elapsed sql rows -> -> -> Hfc.
  unfold Trace, Trace_cases. rewrite <- Hfc.
  unfold logger.Silent, logger.Error, logger.Warn, logger.Info.
  repeat split.
  - intros Hl. apply (makes_load_bind _ l v); [exact H|].
    apply Z.leb_le in Hl. rewrite Hl. by apply makes_nothing.
  - intros Hl e ->. apply (makes_load_bind _ l v); [exact H|].
    destruct (Z.leb_spec (logger.LogLevel (dbLogger_Config v)) 1); [lia|].
    destruct (Z.leb_spec 2 (logger.LogLevel (dbLogger_Config v))); [|lia].
    apply makes_emit.
  - intros Hl -> Hz Hslow. apply (makes_load_bind _ l v); [exact H|].
    destruct (Z.leb_spec (logger.LogLevel (dbLogger_Config v)) 1); [lia|].
    destruct (Z.ltb_spec (logger.SlowThreshold (dbLogger_Config v))
                (time_Since begin)); [|lia].
    destruct (Z.eqb_spec (logger.SlowThreshold (dbLogger_Config v)) 0);
      [lia|].
    destruct (Z.leb_spec 3 (logger.LogLevel (dbLogger_Config v))); [|lia].
    apply makes_emit.
  - intros Hl -> Hfast. apply (makes_load_bind _ l v); [exact H|].
    rewrite Hl.
    destruct (Z.ltb_spec (logger.SlowThreshold (dbLogger_Config v))
                (time_Since begin));
      destruct (Z.eqb_spec (logger.SlowThreshold (dbLogger_Config v)) 0);
      cbn; try apply makes_emit; lia.
  - intros Hl Hne -> Hno. apply (makes_load_bind _ l v); [exact H|].
    destruct (Z.leb_spec (logger.LogLevel (dbLogger_Config v)) 1); [lia|].
    destruct (Z.eqb_spec (logger.LogLevel (dbLogger_Config v)) 4); [lia|].
    destruct (Z.ltb_spec (logger.SlowThreshold (dbLogger_Config v))
                (time_Since begin));
      destruct (Z.eqb_spec (logger.SlowThreshold (dbLogger_Config v)) 0);
      destruct (Z.leb_spec 3 (logger.LogLevel (dbLogger_Config v)));
      cbn; try (by apply makes_nothing); lia.
Qed.

Lemma C2_Trace_selection_witness :
  heap (sample_world logger.Info) !! 1%positive
  = Some (sample_logger logger.Info)
  /\ makes [call_Printf 0%nat "%s [%.3fms] [rows:%v] %s"
              [VError (errorString "boom"); VMillis 1000; VInt64 1;
               VString "SELECT 1"]]
       (Trace sample_Sprintf sample_Since 1 0 sample_fc
          (Some (errorString "boom")))
       (sample_world logger.Info)
  /\ makes [call_Printf 0%nat "[%.3fms] [rows:%v] %s"
              [VMillis 1000; VInt64 1; VString "SELECT 1"]]
       (Trace sample_Sprintf sample_Since 1 0 sample_fc None)
       (sample_world logger.Info).
Proof.
  split; [apply lookup_singleton_eq|].
  split.
  - refine (proj1 (proj2 (C2_Trace_selection sample_Sprintf sample_Since
              (sample_world logger.Info) 1 (sample_logger logger.Info)
              0 sample_fc (Some (errorString "boom"))
              (lookup_singleton_eq _ _) logger.Info (200 * time.Millisecond)
              1000 "SELECT 1" 1 eq_refl eq_refl eq_refl eq_refl))
              _ (errorString "boom") eq_refl).
    unfold logger.Silent, logger.Info. lia.
  - refine (proj1 (proj2 (proj2 (proj2 (C2_Trace_selection sample_Sprintf
              sample_Since
              (sample_world logger.Info) 1 (sample_logger logger.Info)
              0 sample_fc None
              (lookup_singleton_eq _ _) logger.Info (200 * time.Millisecond)
              1000 "SELECT 1" 1 eq_refl eq_refl eq_refl eq_refl))))
              eq_refl eq_refl _).
    unfold time.Millisecond. lia.
Defined.

(* ===================================================================== *)
(** ** postgresql.go *)
(* ===================================================================== *)

(** The text of the error both pool setters return. *)
Lemma Errorf_get_sql_db (err : error) :
  Errorf "failed to get sql db; %s" [fmt.OString (message err)]
  = errorString ("failed to get sql db; " +:+ message err).
Proof.
  unfold Errorf. cbn. by rewrite (append_nil_r (message err)).
Qed.

Lemma Errorf_connect (err : error) :
  Errorf "failed to connect database; %s" [fmt.OString (message err)]
  = errorString ("failed to connect database; " +:+ message err).
Proof.
  unfold Errorf. cbn. by rewrite (append_nil_r (message err)).
Qed.

(** C8: SetMaxConnectionPool and SetMinConnectionPool return an error
    exactly when DB() fails.  The error's text is the static context
    "failed to get sql db; " followed by the text of the underlying error,
    and on that path the world is unchanged: no setter is called.  When
    DB() answers a handle, nil is returned after one call of
    SetMaxOpenConns, respectively SetMaxIdleConns, with n. *)
Theorem C8_pool_setters (db : PostgreSQL) (n : Z) (w : world) :
  (forall err : error,
     gorm_DB_DB (PostgreSQL_DB db) = Err err ->
     SetMaxConnectionPool db n w
     = Some (Some (errorString ("failed to get sql db; " +:+ message err)), w)
     /\ SetMinConnectionPool db n w
        = Some (Some (errorString ("failed to get sql db; " +:+ message err)),
                w))
  /\ (forall sqlDB : sql_DB,
        gorm_DB_DB (PostgreSQL_DB db) = Ok sqlDB ->
        SetMaxConnectionPool db n w
        = Some (None, {| calls := calls w ++ [call_SetMaxOpenConns sqlDB n];
                         heap := heap w |})
        /\ SetMinConnectionPool db n w
           = Some (None, {| calls := calls w ++ [call_SetMaxIdleConns sqlDB n];
                            heap := heap w |})).
Proof.
  unfold SetMaxConnectionPool, SetMinConnectionPool.
  split.
  - intros err ->. rewrite Errorf_get_sql_db. by split.
  - intros sqlDB ->. by split.
Qed.

Lemma C8_pool_setters_witness :
  gorm_DB_DB broken_gormDB = Err (errorString "sql: database is closed")
  /\ SetMaxConnectionPool
       {| PostgreSQL_DB := broken_gormDB; PostgreSQL_dbLogger := None |}
       20 empty_world
     = Some (Some (errorString
                     "failed to get sql db; sql: database is closed"),
             empty_world)
  /\ gorm_DB_DB sample_gormDB = Ok 1%nat
  /\ SetMinConnectionPool
       {| PostgreSQL_DB := sample_gormDB; PostgreSQL_dbLogger := None |}
       5 empty_world
     = Some (None, {| calls := [call_SetMaxIdleConns 1%nat 5]; heap := ∅ |}).
Proof.
  split; [reflexivity|].
  split.
  - exact (proj1 (proj1 (C8_pool_setters
             {| PostgreSQL_DB := broken_gormDB; PostgreSQL_dbLogger := None |}
             20 empty_world) (errorString "sql: database is closed") eq_refl)).
  - split; [reflexivity|].
    exact (proj2 (proj2 (C8_pool_setters
             {| PostgreSQL_DB := sample_gormDB; PostgreSQL_dbLogger := None |}
             5 empty_world) 1%nat eq_refl)).
Defined.

(** C10: for every writer, receiver and world, SetLogger builds a new
    logger on the writer with SlowThreshold 200 ms, Colorful true,
    IgnoreRecordNotFoundError false and LogLevel Warn (and the colourful
    formats), and installs it both as the receiver's dbLogger and as the
    Logger of its gorm handle; the caller passes no setting but the
    writer. *)
Theorem C10_SetLogger_fixed_config (db : PostgreSQL) (writer : logger.Writer)
    (w : world) :
  exists (l : positive) (v : dbLogger) (db' : PostgreSQL) (w' : world),
    SetLogger db writer w = Some (db', w')
    /\ heap w !! l = None
    /\ heap w' !! l = Some v
    /\ PostgreSQL_dbLogger db' = Some l
    /\ gorm_DB_Logger (PostgreSQL_DB db') = logger.DbLogger l
    /\ gorm_DB_DB (PostgreSQL_DB db') = gorm_DB_DB (PostgreSQL_DB db)
    /\ dbLogger_Writer v = writer
    /\ logger.SlowThreshold (dbLogger_Config v) = 200000000
    /\ logger.Colorful (dbLogger_Config v) = true
    /\ logger.IgnoreRecordNotFoundError (dbLogger_Config v) = false
    /\ logger.LogLevel (dbLogger_Config v) = logger.Warn
    /\ warnStr v = ESC +:+ "[0m" +:+ ESC +:+ "[35m[warn] %s" +:+ ESC +:+ "[0m"
    /\ (forall k : positive, k <> l -> heap w' !! k = heap w !! k)
    /\ calls w' = calls w.
Proof.
  eexists (fresh (dom (heap w))), _, _, _.
  split; [reflexivity|].
  cbn [heap calls PostgreSQL_dbLogger PostgreSQL_DB gorm_DB_Logger gorm_DB_DB].
  split; [apply fresh_not_allocated|].
  split; [apply lookup_insert_eq|].
  do 9 (split; [reflexivity|]).
  split; [|reflexivity].
  intros k Hk. by rewrite lookup_insert_ne.
Qed.

(** What CreatePostgreSQL does, by cases on what gorm answers: the Config
    it leaves behind, its result, and the calls it makes. *)
Lemma CreatePostgreSQL_eq (gorm_Open : postgres.Config -> result gorm_DB)
    (cfg : Config) (w : world) :
  forall (cfg' : Config) (c : postgres.Config),
    cfg' = (if String.eqb (Timezone cfg) "" then set_Timezone "Asia/Jakarta" cfg
            else cfg) ->
    c = {| postgres.DSN := DSN cfg'; postgres.PreferSimpleProtocol := true |} ->
    CreatePostgreSQL gorm_Open cfg w =
    match gorm_Open c with
    | Err err =>
        Some ((cfg', (None, Some (errorString
                 ("failed to connect database; " +:+ message err)))),
              {| calls := calls w ++ [call_Open c]; heap := heap w |})
    | Ok gormDB =>
        match gorm_DB_DB gormDB with
        | Err err =>
            Some ((cfg', (None, Some (errorString
                     ("failed to get sql db; " +:+ message err)))),
                  {| calls := calls w ++ [call_Open c]; heap := heap w |})
        | Ok sqlDB =>
            Some ((cfg',
                   (Some {| PostgreSQL_DB := gormDB;
                            PostgreSQL_dbLogger := None |}, None)),
                  {| calls :=
                       calls w ++ call_Open c
                       :: (if MaxConnectionPool cfg' <=? 0
                           then [call_SetMaxOpenConns sqlDB
                                   (MaxConnectionPool cfg')]
                           else [])
                       ++ [call_SetMaxIdleConns sqlDB (MinConnectionPool cfg')];
                     heap := heap w |})
        end
    end.
Proof.
  intros cfg' c -> ->. unfold CreatePostgreSQL.
  set (cfg' := if String.eqb (Timezone cfg) "" then _ else _).
  unfold bind at 1. cbn [emit].
  destruct (gorm_Open _) as [gormDB|err].
  2: { unfold ret. by rewrite Errorf_connect. }
  unfold SetMaxConnectionPool, SetMinConnectionPool.
  cbn [PostgreSQL_DB].
  destruct (gorm_DB_DB gormDB) as [sqlDB|err].
  - destruct (MaxConnectionPool cfg' <=? 0); unfold bind, ret, emit;
      cbn [calls heap]; rewrite <- ?app_assoc; reflexivity.
  - rewrite Errorf_get_sql_db.
    destruct (MaxConnectionPool cfg' <=? 0); reflexivity.
Qed.

(** C6: for every Config whose Timezone is empty, CreatePostgreSQL sets
    Timezone to "Asia/Jakarta" before building the connection string: the
    DSN of its call to gorm.Open is the DSN of the updated Config and ends
    in "TimeZone=Asia/Jakarta".  A Config whose Timezone is not empty is
    left as it is.  In both cases the call to gorm.Open is the first call
    made, and the function returns. *)
Theorem C6_default_timezone (gorm_Open : postgres.Config -> result gorm_DB)
    (cfg : Config) (w : world) :
  exists (cfg' : Config) (r : option PostgreSQL * option error) (w' : world)
         (rest : list call),
    CreatePostgreSQL gorm_Open cfg w = Some ((cfg', r), w')
    /\ calls w' =
       calls w
       ++ call_Open {| postgres.DSN := DSN cfg';
                       postgres.PreferSimpleProtocol := true |} :: rest
    /\ (Timezone cfg = "" ->
        cfg' = set_Timezone "Asia/Jakarta" cfg
        /\ DSN cfg' =
           "user=" +:+ User cfg +:+ " password=" +:+ Pass cfg
           +:+ " dbname=" +:+ Name cfg +:+ " port=" +:+ fmt.itoa (Port cfg)
           +:+ " host=" +:+ Host cfg
           +:+ " sslmode=disable TimeZone=Asia/Jakarta")
    /\ (Timezone cfg <> "" -> cfg' = cfg).
Proof.
  pose proof (CreatePostgreSQL_eq gorm_Open cfg w _ _ eq_refl eq_refl) as Hrun.
  set (cfg' := if String.eqb (Timezone cfg) "" then _ else _) in Hrun.
  assert (Hcfg : (Timezone cfg = "" -> cfg' = set_Timezone "Asia/Jakarta" cfg)
                 /\ (Timezone cfg <> "" -> cfg' = cfg)).
  { subst cfg'. destruct (String.eqb_spec (Timezone cfg) ""); by split. }
  exists cfg'.
  assert (exists r w' rest,
            CreatePostgreSQL gorm_Open cfg w = Some ((cfg', r), w')
            /\ calls w' =
               calls w
               ++ call_Open {| postgres.DSN := DSN cfg';
                               postgres.PreferSimpleProtocol := true |}
               :: rest) as (r & w' & rest & H1 & H2).
  { rewrite Hrun. destruct (gorm_Open _) as [gormDB|err].
    - destruct (gorm_DB_DB gormDB) as [sqlDB|err]; by eexists _, _, _.
    - by eexists _, _, _. }
  exists r, w', rest.
  split; [exact H1|]. split; [exact H2|].
  split; [|apply Hcfg].
  intros Htz. destruct Hcfg as [Hcfg _]. rewrite (Hcfg Htz).
  split; [reflexivity|]. by rewrite DSN_eq.
Qed.

(** C1: the README's configuration, with MaxConnectionPool 20, on a
    connection that opens and whose handle is there.  CreatePostgreSQL
    succeeds, and the calls it made are gorm.Open and SetMaxIdleConns(5):
    SetMaxOpenConns(20) is not among them. *)
Theorem C1_max_pool_not_applied :
  CreatePostgreSQL (fun _ => Ok sample_gormDB) readme_cfg empty_world
  = Some ((readme_cfg,
           (Some {| PostgreSQL_DB := sample_gormDB;
                    PostgreSQL_dbLogger := None |}, None)),
          {| calls :=
               [call_Open
                  {| postgres.DSN :=
                       "user=username password=password dbname=dbname port=5432 host=localhost sslmode=disable TimeZone=Asia/Jakarta";
                     postgres.PreferSimpleProtocol := true |};
                call_SetMaxIdleConns 1%nat 5];
             heap := ∅ |})
  /\ ~ In (call_SetMaxOpenConns 1%nat 20)
         (match CreatePostgreSQL (fun _ => Ok sample_gormDB) readme_cfg
                  empty_world with
          | Some (_, w') => calls w'
          | None => []
          end).
Proof.
  split; [reflexivity|].
  cbn. intros [H|[H|[]]]; discriminate H.
Qed.


(* ===================================================================== *)
(** ** Further properties: config.go *)
(* ===================================================================== *)

(** Moving text across the separator between two neighbouring fields
    changes neither rendering. *)
Lemma shift_across_separator (sep u s t rest : string) :
  (u +:+ sep +:+ s) +:+ sep +:+ t +:+ rest
  = u +:+ sep +:+ (s +:+ sep +:+ t) +:+ rest.
Proof.
  rewrite (append_assoc u (sep +:+ s) (sep +:+ t +:+ rest)).
  rewrite (append_assoc sep s (sep +:+ t +:+ rest)).
  rewrite (append_assoc s (sep +:+ t) rest).
  rewrite (append_assoc sep t rest).
  reflexivity.
Qed.

(** X1: The renderings do not delimit their fields: text moved from the end
    of User to the start of Pass, with the separator " password=" between
    them, gives a different Config and the same DSN and display string. *)
Theorem DSN_fields_not_delimited (cfg : Config) (u s t : string) :
  DSN (set_User (u +:+ " password=" +:+ s) (set_Pass t cfg))
  = DSN (set_User u (set_Pass (s +:+ " password=" +:+ t) cfg))
  /\ Config_String (set_User (u +:+ " password=" +:+ s) (set_Pass t cfg))
     = Config_String (set_User u (set_Pass (s +:+ " password=" +:+ t) cfg)).
Proof.
  rewrite (DSN_eq (set_User (u +:+ " password=" +:+ s) (set_Pass t cfg))).
  rewrite (DSN_eq (set_User u (set_Pass (s +:+ " password=" +:+ t) cfg))).
  rewrite (Config_String_eq
             (set_User (u +:+ " password=" +:+ s) (set_Pass t cfg))).
  rewrite (Config_String_eq
             (set_User u (set_Pass (s +:+ " password=" +:+ t) cfg))).
  cbn [User Pass Name Port Host Timezone MinConnectionPool MaxConnectionPool
       set_User set_Pass].
  split; apply (f_equal (String.append "user=")), shift_across_separator.
Qed.


(* ===================================================================== *)
(** ** Further properties: CreatePostgreSQL *)
(* ===================================================================== *)

Lemma Timezone_defaulted (cfg : Config) : Timezone (defaulted cfg) <> "".
Proof.
  unfold defaulted. destruct (String.eqb_spec (Timezone cfg) ""); [|done].
  discriminate.
Qed.

Lemma defaulted_fixpoint (cfg : Config) : defaulted (defaulted cfg) = defaulted cfg.
Proof.
  unfold defaulted at 1.
  destruct (String.eqb_spec (Timezone (defaulted cfg)) "") as [E|]; [|done].
  by destruct (Timezone_defaulted cfg).
Qed.

(** CreatePostgreSQL in terms of [defaulted] and [opened_with]. *)
Lemma CreatePostgreSQL_run (gorm_Open : postgres.Config -> result gorm_DB)
    (cfg : Config) (w : world) :
  CreatePostgreSQL gorm_Open cfg w =
  match gorm_Open (opened_with cfg) with
  | Err err =>
      Some ((defaulted cfg,
             (None, Some (errorString
                ("failed to connect database; " +:+ message err)))),
            {| calls := calls w ++ [call_Open (opened_with cfg)];
               heap := heap w |})
  | Ok gormDB =>
      match gorm_DB_DB gormDB with
      | Err err =>
          Some ((defaulted cfg,
                 (None, Some (errorString
                    ("failed to get sql db; " +:+ message err)))),
                {| calls := calls w ++ [call_Open (opened_with cfg)];
                   heap := heap w |})
      | Ok sqlDB =>
          Some ((defaulted cfg,
                 (Some {| PostgreSQL_DB := gormDB;
                          PostgreSQL_dbLogger := None |}, None)),
                {| calls :=
                     calls w ++ call_Open (opened_with cfg)
                     :: (if MaxConnectionPool (defaulted cfg) <=? 0
                         then [call_SetMaxOpenConns sqlDB
                                 (MaxConnectionPool (defaulted cfg))]
                         else [])
                     ++ [call_SetMaxIdleConns sqlDB
                           (MinConnectionPool (defaulted cfg))];
                   heap := heap w |})
      end
  end.
Proof. exact (CreatePostgreSQL_eq gorm_Open cfg w _ _ eq_refl eq_refl). Qed.

Lemma defaulted_fields (cfg : Config) :
  Host (defaulted cfg) = Host cfg /\ Port (defaulted cfg) = Port cfg
  /\ User (defaulted cfg) = User cfg /\ Pass (defaulted cfg) = Pass cfg
  /\ Name (defaulted cfg) = Name cfg
  /\ MaxConnectionPool (defaulted cfg) = MaxConnectionPool cfg
  /\ MinConnectionPool (defaulted cfg) = MinConnectionPool cfg.
Proof. unfold defaulted. by destruct (String.eqb (Timezone cfg) ""). Qed.

(** X2: What CreatePostgreSQL does to the Config it is given: it returns with
    a Timezone that is never empty and every other field as it was, so
    the display string is unchanged; and the Config it leaves is one it
    would leave alone: called again on it, with gorm answering the same,
    it gives the same Config, result and calls. *)
Theorem CreatePostgreSQL_Config_effect
    (gorm_Open : postgres.Config -> result gorm_DB) (cfg : Config)
    (w : world) :
  exists (cfg' : Config) (r : option PostgreSQL * option error) (w' : world),
    CreatePostgreSQL gorm_Open cfg w = Some ((cfg', r), w')
    /\ Timezone cfg' <> ""
    /\ Host cfg' = Host cfg /\ Port cfg' = Port cfg /\ User cfg' = User cfg
    /\ Pass cfg' = Pass cfg /\ Name cfg' = Name cfg
    /\ MaxConnectionPool cfg' = MaxConnectionPool cfg
    /\ MinConnectionPool cfg' = MinConnectionPool cfg
    /\ Config_String cfg' = Config_String cfg
    /\ CreatePostgreSQL gorm_Open cfg' w = Some ((cfg', r), w').
Proof.
  destruct (defaulted_fields cfg) as (Hh & Hp & Hu & Hpw & Hn & Hmax & Hmin).
  assert (Hopen : opened_with (defaulted cfg) = opened_with cfg).
  { unfold opened_with. by rewrite defaulted_fixpoint. }
  assert (exists r w',
            CreatePostgreSQL gorm_Open cfg w = Some ((defaulted cfg, r), w')
            /\ CreatePostgreSQL gorm_Open (defaulted cfg) w
               = Some ((defaulted cfg, r), w')) as (r & w' & H1 & H2).
  { rewrite !CreatePostgreSQL_run, Hopen, defaulted_fixpoint.
    destruct (gorm_Open _) as [gormDB|err]; [|by eexists _, _].
    destruct (gorm_DB_DB gormDB); by eexists _, _. }
  exists (defaulted cfg), r, w'.
  split; [exact H1|]. split; [apply Timezone_defaulted|].
  do 7 (split; [assumption|]).
  split; [|exact H2].
  rewrite !Config_String_eq. congruence.
Qed.

(** X3: CreatePostgreSQL always returns, with either a connection or an
    error and never both or neither.  It allocates no logger, its first
    call is gorm.Open on the DSN of the Config, and every call after that
    is SetMaxOpenConns or SetMaxIdleConns: it opens once and prints
    nothing. *)
Theorem CreatePostgreSQL_result_shape
    (gorm_Open : postgres.Config -> result gorm_DB) (cfg : Config)
    (w : world) :
  exists (cfg' : Config) (db : option PostgreSQL) (err : option error)
         (w' : world) (rest : list call),
    CreatePostgreSQL gorm_Open cfg w = Some ((cfg', (db, err)), w')
    /\ (db = None <-> err <> None)
    /\ heap w' = heap w
    /\ calls w' = calls w ++ call_Open (opened_with cfg) :: rest
    /\ Forall (fun c : call =>
                 exists (h : sql_DB) (n : Z),
                   c = call_SetMaxOpenConns h n
                   \/ c = call_SetMaxIdleConns h n) rest.
Proof.
  rewrite CreatePostgreSQL_run.
  destruct (gorm_Open _) as [gormDB|err].
  - destruct (gorm_DB_DB gormDB) as [sqlDB|err].
    + eexists _, _, _, _, _. split; [reflexivity|].
      split; [split; [discriminate|by intros []]|].
      split; [reflexivity|]. split; [reflexivity|].
      apply Forall_app. split.
      * destruct (_ <=? 0); repeat constructor. by eexists _, _; left.
      * repeat constructor. by eexists _, _; right.
    + eexists _, _, _, _, []. split; [reflexivity|].
      split; [split; [discriminate|reflexivity]|].
      by repeat split.
  - eexists _, _, _, _, []. split; [reflexivity|].
    split; [split; [discriminate|reflexivity]|].
    by repeat split.
Qed.

(** X4: When CreatePostgreSQL returns an error, it returns no connection, the
    one call it made is gorm.Open (no pool size was set), and the error
    is either "failed to connect database; " and the text of the error of
    gorm.Open, or "failed to get sql db; " and the text of the error of
    DB() on a connection that did open. *)
Theorem CreatePostgreSQL_failure
    (gorm_Open : postgres.Config -> result gorm_DB) (cfg cfg' : Config)
    (db : option PostgreSQL) (e : error) (w w' : world) :
  CreatePostgreSQL gorm_Open cfg w = Some ((cfg', (db, Some e)), w') ->
  db = None
  /\ calls w' = calls w ++ [call_Open (opened_with cfg)]
  /\ ((exists e0 : error,
         gorm_Open (opened_with cfg) = Err e0
         /\ e = errorString ("failed to connect database; " +:+ message e0))
      \/ (exists (gormDB : gorm_DB) (e0 : error),
            gorm_Open (opened_with cfg) = Ok gormDB
            /\ gorm_DB_DB gormDB = Err e0
            /\ e = errorString ("failed to get sql db; " +:+ message e0))).
Proof.
  rewrite CreatePostgreSQL_run.
  destruct (gorm_Open _) as [gormDB|e0] eqn:Hopen.
  - destruct (gorm_DB_DB gormDB) as [sqlDB|e0] eqn:Hdb; [discriminate|].
    intros [= <- <- <- <-]. split; [reflexivity|]. split; [reflexivity|].
    right. by exists gormDB, e0.
  - intros [= <- <- <- <-]. split; [reflexivity|]. split; [reflexivity|].
    left. by exists e0.
Qed.

Lemma CreatePostgreSQL_failure_witness :
  CreatePostgreSQL (fun _ => Ok broken_gormDB) readme_cfg empty_world
  = Some ((readme_cfg,
           (None, Some (errorString
                          "failed to get sql db; sql: database is closed"))),
          {| calls := [call_Open (opened_with readme_cfg)]; heap := ∅ |})
  /\ calls {| calls := [call_Open (opened_with readme_cfg)]; heap := ∅ |}
     = calls empty_world ++ [call_Open (opened_with readme_cfg)].
Proof.
  split; [reflexivity|].
  exact (proj1 (proj2 (CreatePostgreSQL_failure (fun _ => Ok broken_gormDB)
           readme_cfg readme_cfg None
           (errorString "failed to get sql db; sql: database is closed")
           empty_world
           {| calls := [call_Open (opened_with readme_cfg)]; heap := ∅ |}
           eq_refl))).
Defined.

(** X5: When CreatePostgreSQL returns a connection, it returns no error; the
    connection holds what gorm.Open answered and a nil dbLogger; and the
    minimum pool size of the Config is always applied: the last call is
    SetMaxIdleConns with MinConnectionPool, on the handle DB() answered,
    after gorm.Open and at most one call of SetMaxOpenConns. *)
Theorem CreatePostgreSQL_success
    (gorm_Open : postgres.Config -> result gorm_DB) (cfg cfg' : Config)
    (db : PostgreSQL) (err : option error) (w w' : world) :
  CreatePostgreSQL gorm_Open cfg w = Some ((cfg', (Some db, err)), w') ->
  err = None
  /\ PostgreSQL_dbLogger db = None
  /\ gorm_Open (opened_with cfg) = Ok (PostgreSQL_DB db)
  /\ exists (sqlDB : sql_DB) (pre : list call),
       gorm_DB_DB (PostgreSQL_DB db) = Ok sqlDB
       /\ calls w' =
          calls w ++ call_Open (opened_with cfg) :: pre
          ++ [call_SetMaxIdleConns sqlDB (MinConnectionPool cfg)]
       /\ (pre = []
           \/ pre = [call_SetMaxOpenConns sqlDB (MaxConnectionPool cfg)]).
Proof.
  rewrite CreatePostgreSQL_run.
  destruct (defaulted_fields cfg) as (_ & _ & _ & _ & _ & Hmax & Hmin).
  rewrite Hmax, Hmin.
  destruct (gorm_Open _) as [gormDB|e0] eqn:Hopen; [|discriminate].
  destruct (gorm_DB_DB gormDB) as [sqlDB|e0] eqn:Hdb; [|discriminate].
  intros [= <- <- <- <-]. cbn [PostgreSQL_DB PostgreSQL_dbLogger calls].
  split; [reflexivity|]. split; [reflexivity|]. split; [reflexivity|].
  exists sqlDB. eexists. split; [exact Hdb|]. split; [reflexivity|].
  destruct (_ <=? 0); [by right | by left].
Qed.

Lemma CreatePostgreSQL_success_witness :
  CreatePostgreSQL (fun _ => Ok sample_gormDB) readme_cfg empty_world
  = Some ((readme_cfg,
           (Some {| PostgreSQL_DB := sample_gormDB;
                    PostgreSQL_dbLogger := None |}, None)),
          {| calls := [call_Open (opened_with readme_cfg);
                       call_SetMaxIdleConns 1%nat 5];
             heap := ∅ |})
  /\ (fun _ : postgres.Config => Ok sample_gormDB) (opened_with readme_cfg)
     = Ok sample_gormDB.
Proof.
  split; [reflexivity|].
  exact (proj1 (proj2 (proj2 (CreatePostgreSQL_success
           (fun _ => Ok sample_gormDB) readme_cfg readme_cfg
           {| PostgreSQL_DB := sample_gormDB; PostgreSQL_dbLogger := None |}
           None empty_world
           {| calls := [call_Open (opened_with readme_cfg);
                        call_SetMaxIdleConns 1%nat 5];
              heap := ∅ |}
           eq_refl)))).
Defined.

(** X6: DebugMode on the connection CreatePostgreSQL returns, before any call
    of SetLogger, panics: the dbLogger it copies from is nil. *)
Theorem DebugMode_before_SetLogger_panics
    (gorm_Open : postgres.Config -> result gorm_DB) (cfg cfg' : Config)
    (db : PostgreSQL) (err : option error) (w w' : world) :
  CreatePostgreSQL gorm_Open cfg w = Some ((cfg', (Some db, err)), w') ->
  DebugMode db w' = None.
Proof.
  rewrite CreatePostgreSQL_run.
  destruct (gorm_Open _) as [gormDB|e0]; [|discriminate].
  destruct (gorm_DB_DB gormDB) as [sqlDB|e0]; [|discriminate].
  by intros [= <- <- <- <-].
Qed.

Lemma DebugMode_before_SetLogger_panics_witness :
  CreatePostgreSQL (fun _ => Ok sample_gormDB) readme_cfg empty_world
  = Some ((readme_cfg,
           (Some {| PostgreSQL_DB := sample_gormDB;
                    PostgreSQL_dbLogger := None |}, None)),
          {| calls := [call_Open (opened_with readme_cfg);
                       call_SetMaxIdleConns 1%nat 5];
             heap := ∅ |})
  /\ DebugMode {| PostgreSQL_DB := sample_gormDB; PostgreSQL_dbLogger := None |}
       {| calls := [call_Open (opened_with readme_cfg);
                    call_SetMaxIdleConns 1%nat 5];
          heap := ∅ |}
     = None.
Proof.
  split; [reflexivity|].
  exact (DebugMode_before_SetLogger_panics (fun _ => Ok sample_gormDB)
           readme_cfg readme_cfg
           {| PostgreSQL_DB := sample_gormDB; PostgreSQL_dbLogger := None |}
           None empty_world
           {| calls := [call_Open (opened_with readme_cfg);
                        call_SetMaxIdleConns 1%nat 5];
              heap := ∅ |}
           eq_refl).
Defined.


(* ===================================================================== *)
(** ** Further properties: the logger *)
(* ===================================================================== *)

Lemma makes_unique (cs cs' : list call) (m : M unit) (w : world) :
  makes cs m w -> makes cs' m w -> cs = cs'.
Proof.
  intros (w1 & H1 & _ & Hc1) (w2 & H2 & _ & Hc2).
  rewrite H1 in H2. injection H2 as <-.
  rewrite Hc1 in Hc2. by apply app_inv_head in Hc2.
Qed.

Lemma LogMode_run (w : world) (l : positive) (v : dbLogger) (level : Z) :
  heap w !! l = Some v ->
  LogMode l level w
  = Some (fresh (dom (heap w)),
          {| calls := calls w;
             heap := <[fresh (dom (heap w)) := set_LogLevel level v]> (heap w) |}).
Proof. intros H. unfold LogMode. by rewrite (load_bind l v). Qed.

(** X7: NewLogger takes the writer and the configuration as they are, at a
    new address, and whether Colorful is set or not its six formats are,
    colour sequences apart, the same six texts. *)
Theorem NewLogger_formats_modulo_colour (writer : logger.Writer)
    (config : logger.Config) (w : world) :
  exists (l : positive) (v : dbLogger) (w' : world),
    NewLogger writer config w = Some (l, w')
    /\ heap w !! l = None /\ heap w' = <[l := v]> (heap w)
    /\ calls w' = calls w
    /\ dbLogger_Writer v = writer /\ dbLogger_Config v = config
    /\ strip_colour false (infoStr v) = "[info] %s"
    /\ strip_colour false (warnStr v) = "[warn] %s"
    /\ strip_colour false (errStr v) = "[error] %s"
    /\ strip_colour false (traceStr v) = "[%.3fms] [rows:%v] %s"
    /\ strip_colour false (traceWarnStr v) = "%s [%.3fms] [rows:%v] %s"
    /\ strip_colour false (traceErrStr v) = "%s [%.3fms] [rows:%v] %s".
Proof.
  unfold NewLogger. exists (fresh (dom (heap w))).
  destruct (logger.Colorful config); eexists _, _;
    (split; [reflexivity|]); (split; [apply fresh_not_allocated|]);
    by repeat split.
Qed.

(** Whatever the configuration, the formats NewLogger chooses ask for the
    operands the methods hand over. *)
Lemma NewLogger_formats_ok (writer : logger.Writer) (config : logger.Config)
    (w : world) (l : positive) (w' : world) :
  NewLogger writer config w = Some (l, w') ->
  exists v : dbLogger,
    heap w' = <[l := v]> (heap w) /\ heap w !! l = None /\ formats_ok v
    /\ dbLogger_Writer v = writer /\ dbLogger_Config v = config
    /\ calls w' = calls w.
Proof.
  unfold NewLogger.
  destruct (logger.Colorful config); intros [= <- <-]; eexists;
    (split; [reflexivity|]); (split; [apply fresh_not_allocated|]);
    by repeat split.
Qed.

Lemma heap_ok_insert (w w' : world) (l : positive) (v : dbLogger) :
  heap_ok w -> formats_ok v -> heap w' = <[l := v]> (heap w) -> heap_ok w'.
Proof.
  intros Hw Hv Hh k u. rewrite Hh, lookup_insert.
  case_decide; [by intros [= <-]|apply Hw].
Qed.

(** X8: The formats of every logger ask for the operands its methods hand
    over, and every function of the package that makes a logger keeps it
    so: NewLogger, LogMode, SetLogger and DebugMode. *)
Theorem formats_invariant (w : world) :
  heap_ok w ->
  (forall writer config l w',
     NewLogger writer config w = Some (l, w') -> heap_ok w')
  /\ (forall l level l' w', LogMode l level w = Some (l', w') -> heap_ok w')
  /\ (forall db writer db' w',
        SetLogger db writer w = Some (db', w') -> heap_ok w')
  /\ (forall db db' w', DebugMode db w = Some (db', w') -> heap_ok w').
Proof.
  intros Hw.
  assert (HLogMode : forall l level l' w',
             LogMode l level w = Some (l', w') -> heap_ok w').
  { intros l level l' w'. unfold LogMode, bind, load.
    destruct (heap w !! l) as [v|] eqn:Hl; [|discriminate].
    intros [= <- <-]. eapply heap_ok_insert; [exact Hw| |reflexivity].
    exact (Hw l v Hl). }
  split; [|split; [exact HLogMode|split]].
  - intros writer config l w' H.
    destruct (NewLogger_formats_ok _ _ _ _ _ H) as (v & Hh & _ & Hv & _).
    by eapply heap_ok_insert.
  - intros db writer db' w'. unfold SetLogger, bind.
    destruct (NewLogger _ _ w) as [[l w1]|] eqn:H; [|discriminate].
    intros [= <- <-].
    destruct (NewLogger_formats_ok _ _ _ _ _ H) as (v & Hh & _ & Hv & _).
    by eapply heap_ok_insert.
  - intros db db' w'. unfold DebugMode.
    destruct (PostgreSQL_dbLogger db) as [l|]; [|discriminate].
    unfold bind. destruct (LogMode l logger.Info w) as [[l' w1]|] eqn:H;
      [|discriminate].
    intros [= <- <-]. by eapply HLogMode.
Qed.

Lemma formats_invariant_witness :
  heap_ok empty_world
  /\ forall db writer db' w',
       SetLogger db writer empty_world = Some (db', w') -> heap_ok w'.
Proof.
  assert (H : heap_ok empty_world).
  { intros l v. cbn [empty_world heap]. by rewrite lookup_empty. }
  split; [exact H|].
  exact (proj1 (proj2 (proj2 (formats_invariant empty_world H)))).
Defined.


Lemma Trace_prints_decide (v : dbLogger) (elapsed : time.Duration)
    (err : option error) :
  Trace_prints v elapsed err \/ ~ Trace_prints v elapsed err.
Proof.
  unfold Trace_prints.
  destruct (Z.lt_ge_cases logger.Silent (logger.LogLevel (dbLogger_Config v)));
    [|right; lia].
  destruct err as [e|]; [left; split; [done|by left]|].
  destruct (Z.eq_dec (logger.LogLevel (dbLogger_Config v)) logger.Info);
    [left; split; [done|by right; right]|].
  destruct (Z.eq_dec (logger.SlowThreshold (dbLogger_Config v)) 0);
    [right; intros (_ & [?|[?|?]]); [done|lia|done]|].
  destruct (Z.lt_ge_cases (logger.SlowThreshold (dbLogger_Config v)) elapsed);
    [|right; intros (_ & [?|[?|?]]); [done|lia|done]].
  destruct (Z.le_gt_cases logger.Warn (logger.LogLevel (dbLogger_Config v)));
    [left; split; [done|right; left; lia]|].
  right; intros (_ & [?|[?|?]]); [done|lia|done].
Qed.

(** What Trace prints, by [Trace_prints]. *)
Lemma Trace_prints_iff
    (fmt_Sprintf : string -> list value -> string)
    (time_Since : time.Time -> time.Duration)
    (w : world) (l : positive) (v : dbLogger)
    (begin : time.Time) (fc : unit -> string * Z) (err : option error) :
  heap w !! l = Some v ->
  (Trace_prints v (time_Since begin) err ->
   exists (format : string) (a : list value),
     makes [call_Printf (dbLogger_Writer v) format a]
       (Trace fmt_Sprintf time_Since l begin fc err) w
     /\ (format = traceErrStr v /\ length a = 4%nat
         \/ format = traceWarnStr v /\ length a = 4%nat
         \/ format = traceStr v /\ length a = 3%nat))
  /\ (~ Trace_prints v (time_Since begin) err ->
      makes [] (Trace fmt_Sprintf time_Since l begin fc err) w).
Proof.
  intros H. unfold Trace_prints, Trace, Trace_cases, makes.
  rewrite !(load_bind l v) by exact H.
  unfold logger.Silent, logger.Error, logger.Warn, logger.Info.
  destruct (fc tt) as [sql rows].
  split; intros HP.
  - destruct HP as (Hl & HP).
    destruct (Z.leb_spec (logger.LogLevel (dbLogger_Config v)) 1); [lia|].
    destruct err as [e|].
    { destruct (Z.leb_spec 2 (logger.LogLevel (dbLogger_Config v))); [|lia].
      eexists _, _. split; [apply makes_emit|]. by left. }
    destruct (Z.ltb_spec (logger.SlowThreshold (dbLogger_Config v))
                (time_Since begin));
      destruct (Z.eqb_spec (logger.SlowThreshold (dbLogger_Config v)) 0);
      destruct (Z.leb_spec 3 (logger.LogLevel (dbLogger_Config v)));
      destruct (Z.eqb_spec (logger.LogLevel (dbLogger_Config v)) 4);
      cbn [andb negb];
      try (eexists _, _; split; [apply makes_emit|]; by auto);
      exfalso; destruct HP as [?|[?|?]]; by try lia.
  - destruct (Z.leb_spec (logger.LogLevel (dbLogger_Config v)) 1);
      [by apply makes_nothing|].
    destruct err as [e|]; [exfalso; apply HP; split; [lia|by left]|].
    destruct (Z.ltb_spec (logger.SlowThreshold (dbLogger_Config v))
                (time_Since begin));
      destruct (Z.eqb_spec (logger.SlowThreshold (dbLogger_Config v)) 0);
      destruct (Z.leb_spec 3 (logger.LogLevel (dbLogger_Config v)));
      destruct (Z.eqb_spec (logger.LogLevel (dbLogger_Config v)) 4);
      cbn [andb negb]; try (by apply makes_nothing);
      exfalso; apply HP; split; try lia;
      solve [ by right; right | right; left; lia ].
Qed.

(** X9: Trace makes at most one call, and says when.  If the level is above
    Silent and there is an error, or a nonzero threshold is exceeded at
    level Warn or above, or the level is Info, it makes one Printf, on the
    logger's own writer, with one of the three trace formats and the
    three or four operands that format asks for; otherwise it makes no
    call.  It never changes a logger. *)
Theorem Trace_at_most_one_call
    (fmt_Sprintf : string -> list value -> string)
    (time_Since : time.Time -> time.Duration)
    (w : world) (l : positive) (v : dbLogger)
    (begin : time.Time) (fc : unit -> string * Z) (err : option error) :
  heap w !! l = Some v ->
  (Trace_prints v (time_Since begin) err ->
   exists (format : string) (a : list value),
     makes [call_Printf (dbLogger_Writer v) format a]
       (Trace fmt_Sprintf time_Since l begin fc err) w
     /\ (format = traceErrStr v /\ length a = 4%nat
         \/ format = traceWarnStr v /\ length a = 4%nat
         \/ format = traceStr v /\ length a = 3%nat))
  /\ (~ Trace_prints v (time_Since begin) err ->
      makes [] (Trace fmt_Sprintf time_Since l begin fc err) w).
Proof.
  exact (Trace_prints_iff fmt_Sprintf time_Since w l v begin fc err).
Qed.


Lemma Trace_at_most_one_call_witness :
  heap (sample_world logger.Warn) !! 1%positive
  = Some (sample_logger logger.Warn)
  /\ ~ Trace_prints (sample_logger logger.Warn) (sample_Since 0) None
  /\ makes [] (Trace sample_Sprintf sample_Since 1 0 sample_fc None)
       (sample_world logger.Warn).
Proof.
  assert (Hno : ~ Trace_prints (sample_logger logger.Warn) (sample_Since 0)
                    None).
  { intros (_ & [He|[(_ & Hs & _)|Hl]]); [done| |];
      vm_compute in *; discriminate. }
  split; [apply lookup_singleton_eq|]. split; [exact Hno|].
  exact (proj2 (Trace_at_most_one_call sample_Sprintf sample_Since
           (sample_world logger.Warn) 1 (sample_logger logger.Warn)
           0 sample_fc None (lookup_singleton_eq _ _)) Hno).
Defined.

(** X10: With SlowThreshold zero no statement is reported as slow, however
    long it took: without an error, Trace prints the default format at
    level Info and nothing at any other level. *)
Theorem Trace_zero_threshold_never_slow
    (fmt_Sprintf : string -> list value -> string)
    (time_Since : time.Time -> time.Duration)
    (w : world) (l : positive) (v : dbLogger)
    (begin : time.Time) (fc : unit -> string * Z) :
  heap w !! l = Some v ->
  logger.SlowThreshold (dbLogger_Config v) = 0 ->
  (logger.LogLevel (dbLogger_Config v) = logger.Info ->
   makes [call_Printf (dbLogger_Writer v) (traceStr v)
            [VMillis (time_Since begin); VInt64 (fc tt).2; VString (fc tt).1]]
     (Trace fmt_Sprintf time_Since l begin fc None) w)
  /\ (logger.LogLevel (dbLogger_Config v) <> logger.Info ->
      makes [] (Trace fmt_Sprintf time_Since l begin fc None) w).
Proof.
  intros H Hz. unfold Trace, Trace_cases, makes.
  rewrite !(load_bind l v) by exact H. rewrite Hz.
  unfold logger.Silent, logger.Warn, logger.Info.
  destruct (fc tt) as [sql rows]. cbn [fst snd].
  rewrite andb_false_r. cbn [andb].
  split; intros Hl.
  - rewrite Hl. apply makes_emit.
  - destruct (Z.leb_spec (logger.LogLevel (dbLogger_Config v)) 1);
      [by apply makes_nothing|].
    destruct (Z.eqb_spec (logger.LogLevel (dbLogger_Config v)) 4); [done|].
    by apply makes_nothing.
Qed.

Lemma Trace_zero_threshold_never_slow_witness :
  heap (sample_world_no_threshold logger.Warn) !! 1%positive
  = Some (sample_logger_no_threshold logger.Warn)
  /\ logger.SlowThreshold
       (dbLogger_Config (sample_logger_no_threshold logger.Warn)) = 0
  /\ makes []
       (Trace sample_Sprintf (fun _ => 3600000 * time.Millisecond) 1 0
          sample_fc None)
       (sample_world_no_threshold logger.Warn).
Proof.
  split; [apply lookup_singleton_eq|]. split; [reflexivity|].
  apply (proj2 (Trace_zero_threshold_never_slow sample_Sprintf
           (fun _ => 3600000 * time.Millisecond)
           (sample_world_no_threshold logger.Warn) 1
           (sample_logger_no_threshold logger.Warn) 0 sample_fc
           (lookup_singleton_eq _ _) eq_refl)).
  discriminate.
Defined.


(** X11: The severities nest: a logger that prints an Info message prints Warn
    messages too, and one that prints a Warn message prints Error
    messages too. *)
Theorem severity_methods_nest
    (fmt_Sprintf : string -> list value -> string)
    (w : world) (l : positive) (v : dbLogger)
    (msg msg' : string) (data data' : list value) :
  heap w !! l = Some v ->
  ((exists c : call, makes [c] (Info fmt_Sprintf l msg data) w) ->
   makes [call_Printf (dbLogger_Writer v) (warnStr v)
            [VString (fmt_Sprintf msg' data')]]
     (Warn fmt_Sprintf l msg' data') w)
  /\ ((exists c : call, makes [c] (Warn fmt_Sprintf l msg data) w) ->
      makes [call_Printf (dbLogger_Writer v) (errStr v)
               [VString (fmt_Sprintf msg' data')]]
        (Error fmt_Sprintf l msg' data') w).
Proof.
  intros H.
  pose proof (gated_Printf logger.Info infoStr (fmt_Sprintf msg data) l v w H)
    as [_ HI].
  pose proof (gated_Printf logger.Warn warnStr (fmt_Sprintf msg data) l v w H)
    as [_ HW0].
  pose proof (gated_Printf logger.Warn warnStr (fmt_Sprintf msg' data') l v w H)
    as [HW _].
  pose proof (gated_Printf logger.Error errStr (fmt_Sprintf msg' data') l v w H)
    as [HE _].
  unfold logger.Info, logger.Warn, logger.Error in *.
  split; intros [c Hc].
  - apply HW.
    destruct (Z.le_gt_cases 4 (logger.LogLevel (dbLogger_Config v)));
      [lia|].
    assert (Hn : makes [] (Info fmt_Sprintf l msg data) w) by (apply HI; lia).
    by pose proof (makes_unique _ _ _ _ Hc Hn).
  - apply HE.
    destruct (Z.le_gt_cases 3 (logger.LogLevel (dbLogger_Config v)));
      [lia|].
    assert (Hn : makes [] (Warn fmt_Sprintf l msg data) w) by (apply HW0; lia).
    by pose proof (makes_unique _ _ _ _ Hc Hn).
Qed.

Lemma severity_methods_nest_witness :
  heap (sample_world logger.Info) !! 1%positive
  = Some (sample_logger logger.Info)
  /\ (exists c : call,
        makes [c] (Info sample_Sprintf 1 "connected" []) (sample_world logger.Info))
  /\ makes [call_Printf 0%nat "[warn] %s" [VString "slow pool"]]
       (Warn sample_Sprintf 1 "slow pool" []) (sample_world logger.Info).
Proof.
  assert (Hc : exists c : call,
             makes [c] (Info sample_Sprintf 1 "connected" [])
               (sample_world logger.Info)).
  { eexists. by eexists. }
  split; [apply lookup_singleton_eq|]. split; [exact Hc|].
  exact (proj1 (severity_methods_nest sample_Sprintf
           (sample_world logger.Info) 1 (sample_logger logger.Info)
           "connected" "slow pool" [] [] (lookup_singleton_eq _ _)) Hc).
Defined.

(** X12: A level above Info is not a more verbose Info: the Info method still
    prints, but Trace, whose default case asks for the level to equal
    Info, prints nothing for a statement that has no error and is not
    slow. *)
Theorem level_above_Info_mutes_default_trace
    (fmt_Sprintf : string -> list value -> string)
    (time_Since : time.Time -> time.Duration)
    (w : world) (l : positive) (v : dbLogger)
    (msg : string) (data : list value)
    (begin : time.Time) (fc : unit -> string * Z) :
  heap w !! l = Some v ->
  logger.Info < logger.LogLevel (dbLogger_Config v) ->
  makes [call_Printf (dbLogger_Writer v) (infoStr v)
           [VString (fmt_Sprintf msg data)]]
    (Info fmt_Sprintf l msg data) w
  /\ (~ (logger.SlowThreshold (dbLogger_Config v) <> 0
         /\ logger.SlowThreshold (dbLogger_Config v) < time_Since begin) ->
      makes [] (Trace fmt_Sprintf time_Since l begin fc None) w).
Proof.
  intros H Hl. split.
  - apply (gated_Printf logger.Info infoStr _ l v w H). lia.
  - intros Hfast.
    apply (Trace_prints_iff fmt_Sprintf time_Since w l v begin fc None H).
    unfold Trace_prints. intros (_ & [?|[?|?]]); [done|tauto|lia].
Qed.

Lemma level_above_Info_mutes_default_trace_witness :
  heap (sample_world 5) !! 1%positive = Some (sample_logger 5)
  /\ logger.Info < logger.LogLevel (dbLogger_Config (sample_logger 5))
  /\ makes [call_Printf 0%nat "[info] %s" [VString "connected"]]
       (Info sample_Sprintf 1 "connected" []) (sample_world 5)
  /\ makes [] (Trace sample_Sprintf sample_Since 1 0 sample_fc None)
       (sample_world 5).
Proof.
  assert (Hl : logger.Info < logger.LogLevel (dbLogger_Config (sample_logger 5)))
    by reflexivity.
  pose proof (level_above_Info_mutes_default_trace sample_Sprintf sample_Since
                (sample_world 5) 1 (sample_logger 5) "connected" [] 0
                sample_fc (lookup_singleton_eq _ _) Hl) as [HI HT].
  split; [apply lookup_singleton_eq|]. split; [exact Hl|].
  split; [exact HI|]. apply HT.
  intros [_ Hs]. vm_compute in Hs. discriminate.
Defined.

(** X13: LogMode on a copy: each call makes one more logger, the last level
    given is the level of the last copy, and the original and the first
    copy stay as they were. *)
Theorem LogMode_twice (w : world) (l : positive) (v : dbLogger)
    (level1 level2 : Z) :
  heap w !! l = Some v ->
  exists (l1 l2 : positive) (w1 w2 : world),
    LogMode l level1 w = Some (l1, w1)
    /\ LogMode l1 level2 w1 = Some (l2, w2)
    /\ l1 <> l /\ l2 <> l /\ l2 <> l1
    /\ heap w2 !! l = Some v
    /\ heap w2 !! l1 = Some (set_LogLevel level1 v)
    /\ heap w2 !! l2 = Some (set_LogLevel level2 v)
    /\ calls w2 = calls w.
Proof.
  intros H.
  pose proof (LogMode_run w l v level1 H) as H1.
  set (l1 := fresh (dom (heap w))) in *.
  set (w1 := {| calls := calls w; heap := <[l1 := _]> (heap w) |}) in *.
  assert (Hl1 : heap w1 !! l1 = Some (set_LogLevel level1 v))
    by apply lookup_insert_eq.
  assert (Hne1 : l1 <> l) by exact (fresh_ne_allocated _ _ _ H).
  assert (Hl : heap w1 !! l = Some v).
  { subst w1. cbn [heap]. by rewrite lookup_insert_ne. }
  pose proof (LogMode_run w1 l1 _ level2 Hl1) as H2.
  set (l2 := fresh (dom (heap w1))) in *.
  exists l1, l2, w1. eexists.
  split; [exact H1|]. split; [exact H2|].
  pose proof (fresh_ne_allocated _ _ _ Hl : l2 <> l) as Hne2.
  pose proof (fresh_ne_allocated _ _ _ Hl1 : l2 <> l1) as Hne3.
  cbn [heap calls].
  split; [exact Hne1|]. split; [exact Hne2|]. split; [exact Hne3|].
  split; [by rewrite lookup_insert_ne|].
  split; [by rewrite lookup_insert_ne|].
  split; [|reflexivity].
  by rewrite lookup_insert_eq.
Qed.

Lemma LogMode_twice_witness :
  heap (sample_world logger.Warn) !! 1%positive
  = Some (sample_logger logger.Warn)
  /\ exists (l1 l2 : positive) (w1 w2 : world),
       LogMode 1 logger.Info (sample_world logger.Warn) = Some (l1, w1)
       /\ LogMode l1 logger.Silent w1 = Some (l2, w2)
       /\ heap w2 !! l2 = Some (sample_logger logger.Silent).
Proof.
  split; [apply lookup_singleton_eq|].
  destruct (LogMode_twice (sample_world logger.Warn) 1
              (sample_logger logger.Warn) logger.Info logger.Silent
              (lookup_singleton_eq _ _))
    as (l1 & l2 & w1 & w2 & H1 & H2 & _ & _ & _ & _ & _ & H3 & _).
  by exists l1, l2, w1, w2.
Defined.


(* ===================================================================== *)
(** ** Further properties: SetLogger and DebugMode *)
(* ===================================================================== *)

Lemma SetLogger_run (db : PostgreSQL) (writer : logger.Writer) (w : world) :
  exists v : dbLogger,
    SetLogger db writer w
    = Some ({| PostgreSQL_DB :=
                 {| gorm_DB_DB := gorm_DB_DB (PostgreSQL_DB db);
                    gorm_DB_Logger := logger.DbLogger (fresh (dom (heap w))) |};
               PostgreSQL_dbLogger := Some (fresh (dom (heap w))) |},
            {| calls := calls w;
               heap := <[fresh (dom (heap w)) := v]> (heap w) |})
    /\ dbLogger_Writer v = writer
    /\ dbLogger_Config v
       = {| logger.SlowThreshold := 200000000;
            logger.Colorful := true;
            logger.IgnoreRecordNotFoundError := false;
            logger.ParameterizedQueries := false;
            logger.LogLevel := logger.Warn |}
    /\ formats_ok v.
Proof. eexists. split; [reflexivity|]. by repeat split. Qed.

Lemma DebugMode_run (db : PostgreSQL) (w : world) (l : positive)
    (v : dbLogger) :
  PostgreSQL_dbLogger db = Some l ->
  heap w !! l = Some v ->
  DebugMode db w
  = Some ({| PostgreSQL_DB :=
               {| gorm_DB_DB := gorm_DB_DB (PostgreSQL_DB db);
                  gorm_DB_Logger := logger.DbLogger (fresh (dom (heap w))) |};
             PostgreSQL_dbLogger := Some l |},
          {| calls := calls w;
             heap := <[fresh (dom (heap w)) := set_LogLevel logger.Info v]>
                       (heap w) |}).
Proof.
  intros Hdb H. unfold DebugMode, bind. rewrite Hdb.
  by rewrite (LogMode_run w l v logger.Info H).
Qed.

(** X14: DebugMode, on a connection whose dbLogger is set, installs as the
    Logger of the gorm handle a new copy of the dbLogger at level Info.
    The dbLogger field and the logger it points to are unchanged, so the
    connection keeps the level it had for a later DebugMode to copy from;
    nothing is printed. *)
Theorem DebugMode_installs_Info_copy (db : PostgreSQL) (w : world)
    (l : positive) (v : dbLogger) :
  PostgreSQL_dbLogger db = Some l ->
  heap w !! l = Some v ->
  exists (l' : positive) (db' : PostgreSQL) (w' : world),
    DebugMode db w = Some (db', w')
    /\ l' <> l /\ heap w !! l' = None
    /\ gorm_DB_Logger (PostgreSQL_DB db') = logger.DbLogger l'
    /\ PostgreSQL_dbLogger db' = Some l
    /\ gorm_DB_DB (PostgreSQL_DB db') = gorm_DB_DB (PostgreSQL_DB db)
    /\ heap w' !! l' = Some (set_LogLevel logger.Info v)
    /\ heap w' !! l = Some v
    /\ (forall k : positive, k <> l' -> heap w' !! k = heap w !! k)
    /\ calls w' = calls w.
Proof.
  intros Hdb H. eexists _, _, _.
  split; [exact (DebugMode_run db w l v Hdb H)|].
  pose proof (fresh_ne_allocated _ _ _ H) as Hne.
  cbn [heap calls PostgreSQL_DB PostgreSQL_dbLogger gorm_DB_Logger gorm_DB_DB].
  split; [exact Hne|]. split; [apply fresh_not_allocated|].
  do 3 (split; [reflexivity|]).
  split; [apply lookup_insert_eq|].
  split; [by rewrite lookup_insert_ne|].
  split; [|reflexivity].
  intros k Hk. by rewrite lookup_insert_ne.
Qed.

Lemma DebugMode_installs_Info_copy_witness :
  PostgreSQL_dbLogger
    {| PostgreSQL_DB := sample_gormDB; PostgreSQL_dbLogger := Some 1%positive |}
  = Some 1%positive
  /\ heap (sample_world logger.Warn) !! 1%positive
     = Some (sample_logger logger.Warn)
  /\ exists (l' : positive) (db' : PostgreSQL) (w' : world),
       DebugMode
         {| PostgreSQL_DB := sample_gormDB;
            PostgreSQL_dbLogger := Some 1%positive |}
         (sample_world logger.Warn)
       = Some (db', w')
       /\ gorm_DB_Logger (PostgreSQL_DB db') = logger.DbLogger l'
       /\ heap w' !! l' = Some (sample_logger logger.Info)
       /\ heap w' !! 1%positive = Some (sample_logger logger.Warn).
Proof.
  split; [reflexivity|]. split; [apply lookup_singleton_eq|].
  destruct (DebugMode_installs_Info_copy
              {| PostgreSQL_DB := sample_gormDB;
                 PostgreSQL_dbLogger := Some 1%positive |}
              (sample_world logger.Warn) 1 (sample_logger logger.Warn)
              eq_refl (lookup_singleton_eq _ _))
    as (l' & db' & w' & H1 & _ & _ & H2 & _ & _ & H3 & H4 & _).
  by exists l', db', w'.
Defined.

(** X15: SetLogger and then DebugMode: the connection's dbLogger stays the
    logger SetLogger made, at level Warn, and the Logger of the gorm
    handle is another logger, equal to it but for the level Info.  No
    method of the package takes the level back but SetLogger. *)
Theorem SetLogger_then_DebugMode (db : PostgreSQL) (writer : logger.Writer)
    (w : world) :
  exists (l l' : positive) (v : dbLogger) (db1 db2 : PostgreSQL)
         (w1 w2 : world),
    SetLogger db writer w = Some (db1, w1)
    /\ DebugMode db1 w1 = Some (db2, w2)
    /\ PostgreSQL_dbLogger db2 = Some l
    /\ gorm_DB_Logger (PostgreSQL_DB db2) = logger.DbLogger l'
    /\ l' <> l
    /\ heap w2 !! l = Some v
    /\ heap w2 !! l' = Some (set_LogLevel logger.Info v)
    /\ logger.LogLevel (dbLogger_Config v) = logger.Warn
    /\ dbLogger_Writer v = writer
    /\ calls w2 = calls w.
Proof.
  destruct (SetLogger_run db writer w) as (v & H1 & Hw & Hc & _).
  set (l := fresh (dom (heap w))) in *.
  match type of H1 with _ = Some (?d, ?x) => set (db1 := d) in *;
    set (w1 := x) in * end.
  assert (Hl : heap w1 !! l = Some v) by apply lookup_insert_eq.
  pose proof (DebugMode_run db1 w1 l v eq_refl Hl) as H2.
  eexists l, _, v, db1, _, w1, _.
  split; [exact H1|]. split; [exact H2|].
  cbn [heap calls PostgreSQL_DB PostgreSQL_dbLogger gorm_DB_Logger].
  split; [reflexivity|]. split; [reflexivity|].
  split; [exact (fresh_ne_allocated _ _ _ Hl)|].
  split; [rewrite lookup_insert_ne; [exact Hl|]
         |split; [apply lookup_insert_eq|]].
  - exact (fresh_ne_allocated _ _ _ Hl).
  - by rewrite Hc.
Qed.

(** X16: After SetLogger, Trace on the installed logger reports errors and
    statements slower than 200 ms and nothing else; after DebugMode as
    well, Trace on the installed logger prints every statement, once, on
    the writer given to SetLogger. *)
Theorem Trace_by_mode (fmt_Sprintf : string -> list value -> string)
    (time_Since : time.Time -> time.Duration)
    (db : PostgreSQL) (writer : logger.Writer) (w : world)
    (begin : time.Time) (fc : unit -> string * Z) (err : option error) :
  exists (l l' : positive) (db1 db2 : PostgreSQL) (w1 w2 : world),
    SetLogger db writer w = Some (db1, w1)
    /\ gorm_DB_Logger (PostgreSQL_DB db1) = logger.DbLogger l
    /\ DebugMode db1 w1 = Some (db2, w2)
    /\ gorm_DB_Logger (PostgreSQL_DB db2) = logger.DbLogger l'
    /\ (err = None -> time_Since begin <= 200000000 ->
        makes [] (Trace fmt_Sprintf time_Since l begin fc err) w1)
    /\ (err <> None \/ 200000000 < time_Since begin ->
        exists (format : string) (a : list value),
          makes [call_Printf writer format a]
            (Trace fmt_Sprintf time_Since l begin fc err) w1)
    /\ exists (format : string) (a : list value),
         makes [call_Printf writer format a]
           (Trace fmt_Sprintf time_Since l' begin fc err) w2.
Proof.
  destruct (SetLogger_run db writer w) as (v & H1 & Hw & Hc & _).
  set (l := fresh (dom (heap w))) in *.
  match type of H1 with _ = Some (?d, ?x) => set (db1 := d) in *;
    set (w1 := x) in * end.
  assert (Hl : heap w1 !! l = Some v) by apply lookup_insert_eq.
  pose proof (DebugMode_run db1 w1 l v eq_refl Hl) as H2.
  match type of H2 with _ = Some (?d, ?x) => set (db2 := d) in *;
    set (w2 := x) in * end.
  set (l' := fresh (dom (heap w1))) in *.
  assert (Hl' : heap w2 !! l' = Some (set_LogLevel logger.Info v))
    by apply lookup_insert_eq.
  exists l, l', db1, db2, w1, w2.
  split; [exact H1|]. split; [reflexivity|].
  split; [exact H2|]. split; [reflexivity|].
  pose proof (Trace_prints_iff fmt_Sprintf time_Since w1 l v begin fc err Hl)
    as [Hyes Hno].
  pose proof (Trace_prints_iff fmt_Sprintf time_Since w2 l'
                (set_LogLevel logger.Info v) begin fc err Hl') as [Hdebug _].
  unfold Trace_prints in *. cbn [set_LogLevel dbLogger_Config dbLogger_Writer
    logger.LogLevel logger.SlowThreshold] in Hdebug.
  rewrite Hc, ?Hw in *. cbn [logger.LogLevel logger.SlowThreshold] in *.
  unfold logger.Silent, logger.Warn, logger.Info in *.
  split; [|split].
  - intros -> Hfast. apply Hno. intros (_ & [?|[?|?]]); [done|lia|done].
  - intros Hbad.
    destruct Hyes as (format & a & Hm & _); [|by exists format, a].
    split; [lia|]. destruct Hbad; [by left|right; left; lia].
  - destruct Hdebug as (format & a & Hm & _); [|by exists format, a].
    split; [lia|]. by right; right.
Qed.

(** X17: After SetLogger, and after DebugMode as well, ParamsFilter on the
    installed logger hands the statement and its parameters back as they
    are: statements are logged with their parameters. *)
Theorem ParamsFilter_keeps_parameters (db : PostgreSQL)
    (writer : logger.Writer) (w : world) (sql : string)
    (params : list value) :
  exists (l l' : positive) (db1 db2 : PostgreSQL) (w1 w2 : world),
    SetLogger db writer w = Some (db1, w1)
    /\ gorm_DB_Logger (PostgreSQL_DB db1) = logger.DbLogger l
    /\ ParamsFilter l sql params w1 = Some ((sql, params), w1)
    /\ DebugMode db1 w1 = Some (db2, w2)
    /\ gorm_DB_Logger (PostgreSQL_DB db2) = logger.DbLogger l'
    /\ ParamsFilter l' sql params w2 = Some ((sql, params), w2).
Proof.
  destruct (SetLogger_run db writer w) as (v & H1 & Hw & Hc & _).
  set (l := fresh (dom (heap w))) in *.
  match type of H1 with _ = Some (?d, ?x) => set (db1 := d) in *;
    set (w1 := x) in * end.
  assert (Hl : heap w1 !! l = Some v) by apply lookup_insert_eq.
  pose proof (DebugMode_run db1 w1 l v eq_refl Hl) as H2.
  match type of H2 with _ = Some (?d, ?x) => set (db2 := d) in *;
    set (w2 := x) in * end.
  set (l' := fresh (dom (heap w1))) in *.
  assert (Hl' : heap w2 !! l' = Some (set_LogLevel logger.Info v))
    by apply lookup_insert_eq.
  exists l, l', db1, db2, w1, w2.
  split; [exact H1|]. split; [reflexivity|].
  split; [|split; [exact H2|split; [reflexivity|]]].
  - unfold ParamsFilter. rewrite (load_bind l v) by exact Hl.
    by rewrite Hc.
  - unfold ParamsFilter. rewrite (load_bind l' _) by exact Hl'.
    cbn [set_LogLevel dbLogger_Config logger.ParameterizedQueries].
    by rewrite Hc.
Qed.

(** X18: No Printf of the logger is short of operands or has too many: for a
    logger with the formats NewLogger chooses, every call Info, Warn,
    Error and Trace make hands the writer as many operands as the format
    has directives. *)
Theorem Printf_operands_match_format
    (fmt_Sprintf : string -> list value -> string)
    (time_Since : time.Time -> time.Duration)
    (w : world) (l : positive) (v : dbLogger)
    (msg : string) (data : list value)
    (begin : time.Time) (fc : unit -> string * Z) (err : option error) :
  heap_ok w ->
  heap w !! l = Some v ->
  (exists cs, makes cs (Info fmt_Sprintf l msg data) w /\ Forall arity_ok cs)
  /\ (exists cs, makes cs (Warn fmt_Sprintf l msg data) w
                 /\ Forall arity_ok cs)
  /\ (exists cs, makes cs (Error fmt_Sprintf l msg data) w
                 /\ Forall arity_ok cs)
  /\ (exists cs, makes cs (Trace fmt_Sprintf time_Since l begin fc err) w
                 /\ Forall arity_ok cs).
Proof.
  intros Hw H.
  destruct (Hw l v H) as (Hi & Hwn & He & Ht & Htw & Hte).
  assert (Hgate : forall threshold format text,
             verbs (format v) = 1%nat ->
             exists cs,
               makes cs
                 (x <- load l ;;
                  if threshold <=? logger.LogLevel (dbLogger_Config x)
                  then emit (call_Printf (dbLogger_Writer x) (format x)
                               [VString text])
                  else ret tt) w
               /\ Forall arity_ok cs).
  { intros threshold format text Hv.
    destruct (gated_Printf threshold format text l v w H) as [Hyes Hno].
    destruct (Z.le_gt_cases threshold (logger.LogLevel (dbLogger_Config v))).
    - eexists. split; [by apply Hyes|]. by repeat constructor.
    - eexists. split; [apply Hno; lia|]. constructor. }
  split; [exact (Hgate logger.Info infoStr _ Hi)|].
  split; [exact (Hgate logger.Warn warnStr _ Hwn)|].
  split; [exact (Hgate logger.Error errStr _ He)|].
  destruct (Trace_prints_iff fmt_Sprintf time_Since w l v begin fc err H)
    as [Hyes Hno].
  destruct (Trace_prints_decide v (time_Since begin) err) as [HP|HP].
  - destruct (Hyes HP) as (format & a & Hm & Hf).
    eexists. split; [exact Hm|]. repeat constructor. cbn [arity_ok].
    destruct Hf as [[-> ->]|[[-> ->]|[-> ->]]]; assumption.
  - eexists. split; [exact (Hno HP)|]. constructor.
Qed.

Lemma Printf_operands_match_format_witness :
  heap_ok (sample_world logger.Info)
  /\ heap (sample_world logger.Info) !! 1%positive
     = Some (sample_logger logger.Info)
  /\ exists cs,
       makes cs (Trace sample_Sprintf sample_Since 1 0 sample_fc None)
         (sample_world logger.Info)
       /\ Forall arity_ok cs.
Proof.
  assert (Hok : heap_ok (sample_world logger.Info)).
  { intros k u. unfold sample_world. cbn [heap].
    rewrite lookup_singleton. case_decide; [|discriminate].
    intros [= <-]. by repeat split. }
  split; [exact Hok|]. split; [apply lookup_singleton_eq|].
  exact (proj2 (proj2 (proj2 (Printf_operands_match_format sample_Sprintf
           sample_Since (sample_world logger.Info) 1
           (sample_logger logger.Info) "" [] 0 sample_fc None Hok
           (lookup_singleton_eq _ _))))).
Defined.

